(** * PaddleNLP [paddlenlp/transformers/model_utils.py]

    A shallow embedding of [register_base_model] and of the class
    [PretrainedModel] ([from_pretrained], [save_model_config]) together with
    the properties of the loading and saving protocol.

    Python values are embedded as follows.
    - [str] is [string]; [startswith], [endswith], slicing [k[n:]],
      [split('/')[-1]] and [os.path.join] are written out.
    - [dict] is an association list in insertion order: Python dictionaries
      iterate in insertion order and the code relies on it
      ([list(d.values())[0]], the two marker searches).
    - raising is a result in an error type; the messages of [logger.info]
      and the constructor calls are events of a trace. *)

From Stdlib Require Import String Ascii List Bool ZArith Arith Lia.
Import ListNotations.
Set Warnings "-register-all".
Open Scope list_scope.
Open Scope string_scope.

(** ** Strings *)

Module PyStr.

(** [s.startswith(p)] *)
Definition startswith (s p : string) : bool := String.prefix p s.

(** [s[n:]] for a non-negative [n] *)
Fixpoint drop (n : nat) (s : string) : string :=
  match n, s with
  | O, _ => s
  | S _, EmptyString => EmptyString
  | S n', String _ r => drop n' r
  end.

(** [s.endswith(suf)] *)
Definition endswith (s suf : string) : bool :=
  (String.length suf <=? String.length s)%nat
  && (drop (String.length s - String.length suf) s =? suf).

(** [s.split('/')[-1]]: what follows the last slash, the whole string when
    there is none. [acc] is the segment read so far. *)
Fixpoint last_segment_from (acc s : string) : string :=
  match s with
  | EmptyString => acc
  | String c r =>
      if Ascii.eqb c "/"%char then last_segment_from EmptyString r
      else last_segment_from (acc ++ String c EmptyString) r
  end.

Definition last_segment (s : string) : string :=
  last_segment_from EmptyString s.

(** [os.path.join(a, b)] of [posixpath] *)
Definition path_join (a b : string) : string :=
  if startswith b "/" then b
  else if (a =? "") || endswith a "/" then a ++ b
  else a ++ "/" ++ b.

(** [sep.join(l)] *)
Fixpoint join (sep : string) (l : list string) : string :=
  match l with
  | [] => ""
  | [x] => x
  | x :: r => x ++ sep ++ join sep r
  end.

End PyStr.

(** ** Dictionaries *)

Module Dict.

Definition dict (V : Type) : Type := list (string * V).

Section Ops.
Context {V : Type}.

(** [d.get(k)] *)
Fixpoint get (k : string) (d : dict V) : option V :=
  match d with
  | [] => None
  | (k', v) :: r => if k' =? k then Some v else get k r
  end.

(** [k in d] *)
Definition contains (k : string) (d : dict V) : bool :=
  match get k d with Some _ => true | None => false end.

(** [d[k] = v]: an existing key keeps its place, a new one goes last. *)
Fixpoint set (k : string) (v : V) (d : dict V) : dict V :=
  match d with
  | [] => [(k, v)]
  | (k', v') :: r => if k' =? k then (k', v) :: r else (k', v') :: set k v r
  end.

(** [del d[k]] when present *)
Fixpoint remove (k : string) (d : dict V) : dict V :=
  match d with
  | [] => []
  | (k', v') :: r => if k' =? k then r else (k', v') :: remove k r
  end.

(** [d.pop(k, None)]: the value found and the dictionary left *)
Definition pop (k : string) (d : dict V) : option V * dict V :=
  (get k d, remove k d).

(** [d.update(e)] *)
Definition update (d e : dict V) : dict V :=
  fold_left (fun acc kv => set (fst kv) (snd kv) acc) e d.

Definition keys (d : dict V) : list string := map fst d.
Definition values (d : dict V) : list V := map snd d.

End Ops.

End Dict.

Import Dict.

(** ** Values *)

(** The payload of a parameter. The code never looks inside one. *)
Definition tensor : Type := Z.

(** Modelled from the spec: the module/layer base type of the tensor runtime
    ([paddle.nn.Layer]), "supplying state_dict-style introspection and
    set_state_dict-style loading". A layer owns named parameters and named
    sub-layers; [l_others] are the names of its remaining attributes. [C] is
    the type of the init configuration the init tracker stores on the
    instance ([init_config]). *)
Inductive Layer (C : Type) : Type :=
| mkLayer (cls : string) (init_config : C)
          (params : list (string * tensor))
          (subs : list (string * Layer C))
          (others : list string).

Arguments mkLayer {C} cls init_config params subs others.

(** A Python value: what a JSON document holds, plus model instances, which
    occur as constructor arguments. [PSeq] stands for both tuples and lists:
    [json] writes a tuple as an array and the code only iterates them. *)
Inductive pyval : Type :=
| PNone
| PBool (b : bool)
| PInt (z : Z)
| PStr (s : string)
| PSeq (l : list pyval)
| PDict (d : list (string * pyval))
| PModel (m : Layer (list (string * pyval))).

Definition config : Type := dict pyval.
Definition model : Type := Layer config.

Definition l_class {C} (l : Layer C) : string :=
  match l with mkLayer c _ _ _ _ => c end.
Definition l_init_config {C} (l : Layer C) : C :=
  match l with mkLayer _ c _ _ _ => c end.
Definition l_params {C} (l : Layer C) : list (string * tensor) :=
  match l with mkLayer _ _ p _ _ => p end.
Definition l_subs {C} (l : Layer C) : list (string * Layer C) :=
  match l with mkLayer _ _ _ s _ => s end.
Definition l_others {C} (l : Layer C) : list string :=
  match l with mkLayer _ _ _ _ o => o end.

(** Modelled from the spec: [state_dict], [set_state_dict] and attribute
    lookup of the runtime's layer type. "Partial key mismatch between
    checkpoint and live model ... non-fatal; ... load proceeds with whatever
    weights do align": a parameter whose path is absent from the given state
    keeps its value. *)
Module PaddleLayer.

Section Ops.
Context {C : Type}.

(** [layer.state_dict()]: the layer's own parameters, then those of each
    sub-layer under [name + "."]. *)
Fixpoint state_dict (l : Layer C) : dict tensor :=
  match l with
  | mkLayer _ _ params subs _ =>
      List.app params
      (flat_map (fun ns =>
                   match ns with
                   | (n, s) =>
                       map (fun kt => (n ++ "." ++ fst kt, snd kt))
                           (state_dict s)
                   end) subs)
  end.

(** [set_state_dict] below the path [pfx] *)
Fixpoint load_at (pfx : string) (st : dict tensor) (l : Layer C)
  : Layer C :=
  match l with
  | mkLayer c cfg params subs others =>
      mkLayer c cfg
        (map (fun kt =>
                (fst kt,
                 match get (pfx ++ fst kt) st with
                 | Some t => t
                 | None => snd kt
                 end)) params)
        (map (fun ns =>
                match ns with
                | (n, s) => (n, load_at (pfx ++ n ++ ".") st s)
                end) subs)
        others
  end.

(** [layer.set_state_dict(st)] *)
Definition set_state_dict (st : dict tensor) (l : Layer C) : Layer C :=
  load_at "" st l.

(** What [getattr(layer, name)] finds. *)
Inductive attr : Type :=
| AttrOther
| AttrParam (t : tensor)
| AttrLayer (l : Layer C).

Definition getattr (l : Layer C) (name : string) : option attr :=
  if existsb (String.eqb name) (l_others l) then Some AttrOther
  else match get name (l_params l) with
       | Some t => Some (AttrParam t)
       | None =>
           match get name (l_subs l) with
           | Some s => Some (AttrLayer s)
           | None => None
           end
       end.

Definition hasattr (l : Layer C) (name : string) : bool :=
  match getattr l name with Some _ => true | None => false end.

(** The layer after its sub-layer [name] has been mutated into [s]. *)
Definition with_sub (name : string) (s : Layer C) (l : Layer C)
  : Layer C :=
  match l with
  | mkLayer c cfg params subs others =>
      mkLayer c cfg params (set name s subs) others
  end.

End Ops.

Arguments attr C : clear implicits.

(** The paths the sub-layer [n] contributes to its parent's state. *)
Definition below {C} (n : string) (s : Layer C) : dict tensor :=
  map (fun kt => (n ++ "." ++ fst kt, snd kt)) (state_dict s).

(** An entry whose path is not under [n + "."]. *)
Definition outside (n : string) (kt : string * tensor) : bool :=
  negb (PyStr.startswith (fst kt) (n ++ ".")).

End PaddleLayer.

(** ** Exceptions, trace and the monad of the module *)

Inductive exn : Type :=
| ValueError (msg : string)
| AssertionError (msg : string)
| KeyError (key : string)
| IndexError
| TypeError
| AttributeError
| External (what : string).   (* raised inside a collaborator *)

Inductive outcome (A : Type) : Type :=
| Ok (a : A)
| Raise (e : exn).

Arguments Ok {A} a.
Arguments Raise {A} e.

Inductive event : Type :=
| InfoAlreadyCached (path : string)
| InfoDownloading (file_path root : string)
| Construct (cls : string) (args : list pyval) (kwargs : config)
| InfoMissing (cls : string) (missing_keys : list string)
| InfoUnexpected (cls : string) (unexpected_keys : list string).

(** A computation yields the events it performed and how it ended. *)
Definition M (A : Type) : Type := list event * outcome A.

Definition ret {A} (a : A) : M A := ([], Ok a).
Definition raise {A} (e : exn) : M A := ([], Raise e).
Definition emit (ev : event) : M unit := ([ev], Ok tt).
Definition lift {A} (o : outcome A) : M A := ([], o).

Definition bind {A B} (m : M A) (f : A -> M B) : M B :=
  match m with
  | (tr, Raise e) => (tr, Raise e)
  | (tr, Ok a) => let (tr', r) := f a in ((tr ++ tr')%list, r)
  end.

Declare Scope py_scope.
Delimit Scope py_scope with py.
Notation "x <- m ;; k" := (bind m (fun x => k))
  (at level 61, m at next level, right associativity) : py_scope.
Notation "' pat <- m ;; k" := (bind m (fun x => match x with pat => k end))
  (at level 61, pat pattern, m at next level, right associativity) : py_scope.
Notation "m ;;; k" := (bind m (fun _ => k))
  (at level 61, right associativity) : py_scope.
Open Scope py_scope.

(** A [for] loop threading an accumulator *)
Fixpoint for_each {A B} (f : B -> A -> M B) (acc : B) (l : list A) : M B :=
  match l with
  | [] => ret acc
  | x :: r => acc' <- f acc x ;; for_each f acc' r
  end.

(** Iterating a value, as [list(v)], [enumerate(v)] and [*v] do. *)
Definition py_iter (v : pyval) : outcome (list pyval) :=
  match v with
  | PSeq l => Ok l
  | PDict d => Ok (map PStr (keys d))
  | PStr s => Ok (map (fun c => PStr (String c EmptyString))
                      (list_ascii_of_string s))
  | _ => Raise TypeError
  end.

(** [v == s] for a string [s] *)
Definition py_eq_str (v : pyval) (s : string) : bool :=
  match v with PStr s' => s' =? s | _ => false end.

(** [l[i] = v] *)
Fixpoint list_assign {A} (i : nat) (v : A) (l : list A) : outcome (list A) :=
  match l, i with
  | [], _ => Raise IndexError
  | _ :: r, O => Ok (v :: r)
  | x :: r, S i' =>
      match list_assign i' v r with
      | Ok r' => Ok (x :: r')
      | Raise e => Raise e
      end
  end.

(** ** Classes and the outside world *)

(** What the code uses of a class when it instantiates it: [__name__], the
    call [cls( *args, **kwargs)] and the parameter names of
    [inspect.signature(cls.__init__)]. *)
Record ctor : Type := mkCtor {
  c_name : string;
  c_call : list pyval -> config -> outcome model;
  c_parameters : list string
}.

(** The class attributes [from_pretrained] reads on [cls], after attribute
    resolution along the class hierarchy. [base_model_class] is [None] when
    no registration reached the class. *)
Record pyclass : Type := mkClass {
  c_self : ctor;
  model_config_file : string;
  pretrained_init_configuration : dict config;
  resource_files_names : dict string;
  pretrained_resource_files_map : dict (dict string);
  base_model_prefix : string;
  base_model_class : option ctor
}.

(** The collaborators: file system, downloader, JSON reader, tensor runtime. *)
Record world : Type := mkWorld {
  MODEL_HOME : string;
  isdir : string -> bool;
  isfile : string -> bool;
  path_exists : string -> bool;
  get_path_from_url : string -> string -> outcome string;
  json_load : string -> outcome pyval;
  paddle_load : string -> outcome (dict tensor);
  in_dynamic_mode : bool
}.

(** [cls( *args, **kwargs)], recorded in the trace *)
Definition construct (c : ctor) (args : list pyval) (kwargs : config)
  : M model :=
  emit (Construct (c_name c) args kwargs) ;;; lift (c_call c args kwargs).

(** ** [PretrainedModel.from_pretrained] *)

(** [repr] of a [dict_keys] view, for keys that need no escaping *)
Definition repr_keys (ks : list string) : string :=
  "dict_keys([" ++ PyStr.join ", " (map (fun k => "'" ++ k ++ "'") ks) ++ "])".

Definition unknown_identifier_message (cls_name : string)
           (names : list string) (got : string) : string :=
  "Calling " ++ cls_name ++
  ".from_pretrained() with a model identifier or the " ++
  "path to a directory instead. The supported model " ++
  "identifiers are as follows: " ++ repr_keys names ++
  ", but got: " ++ got.

(** Lines 129-154: the resource files and the registered configuration. *)
Definition locate_resources (w : world) (cls : pyclass)
           (pretrained_model_name_or_path : string)
  : M (dict string * config) :=
  match get pretrained_model_name_or_path (pretrained_init_configuration cls)
  with
  | Some init_configuration =>
      resource_files <-
        for_each (fun resource_files (item : string * dict string) =>
                    let (file_id, map_list) := item in
                    match get pretrained_model_name_or_path map_list with
                    | Some url => ret (set file_id url resource_files)
                    | None => raise (KeyError pretrained_model_name_or_path)
                    end)
                 [] (pretrained_resource_files_map cls) ;;
      ret (resource_files, init_configuration)
  | None =>
      if isdir w pretrained_model_name_or_path then
        let resource_files :=
          fold_left (fun resource_files (item : string * string) =>
                       let (file_id, file_name) := item in
                       set file_id
                           (PyStr.path_join pretrained_model_name_or_path
                                            file_name)
                           resource_files)
                    (resource_files_names cls) [] in
        ret (set "model_config_file"
                 (PyStr.path_join pretrained_model_name_or_path
                                  (model_config_file cls))
                 resource_files,
             [])
      else
        raise (ValueError
                 (unknown_identifier_message
                    (c_name (c_self cls))
                    (keys (pretrained_init_configuration cls))
                    pretrained_model_name_or_path))
  end.

(** Lines 156-170: local file, cached file or download, per resource. *)
Definition resolve_resources (w : world)
           (pretrained_model_name_or_path : string)
           (resource_files : dict string) : M (dict string) :=
  let default_root :=
    PyStr.path_join (MODEL_HOME w) pretrained_model_name_or_path in
  for_each (fun resolved_resource_files (item : string * string) =>
              let (file_id, file_path) := item in
              let path :=
                PyStr.path_join default_root (PyStr.last_segment file_path) in
              if isfile w file_path then
                ret (set file_id file_path resolved_resource_files)
              else if path_exists w path then
                emit (InfoAlreadyCached path) ;;;
                ret (set file_id path resolved_resource_files)
              else
                emit (InfoDownloading file_path default_root) ;;;
                p <- lift (get_path_from_url w file_path default_root) ;;
                ret (set file_id p resolved_resource_files))
           [] resource_files.

(** A loaded JSON document used as a dictionary: [.pop(key, default)] on
    anything else raises. *)
Definition as_dict (v : pyval) : M config :=
  match v with
  | PDict d => ret d
  | PSeq _ => raise TypeError
  | _ => raise AttributeError
  end.

(** Lines 174-180: the saved configuration file wins over the registry. *)
Definition load_init_kwargs (w : world) (resolved_resource_files : dict string)
           (init_configuration : config) : M (config * dict string) :=
  let (model_config_file, resolved_resource_files) :=
    pop "model_config_file" resolved_resource_files in
  match model_config_file with
  | Some f =>
      v <- lift (json_load w f) ;;
      init_kwargs <- as_dict v ;;
      ret (init_kwargs, resolved_resource_files)
  | None => ret (init_configuration, resolved_resource_files)
  end.

(** Where the nested base-model marker was found. *)
Inductive arg_index : Type :=
| AtPosition (i : nat)
| AtKeyword (arg_name : string).

(** The locals of [from_pretrained] after the configuration is split
    (line 218). *)
Record split : Type := mkSplit {
  base_args : pyval;
  base_kwargs : config;
  derived_args : list pyval;
  derived_kwargs : config;
  base_arg_index : option arg_index
}.

(** [isinstance(arg, dict) and "init_class" in arg] *)
Definition is_marker (arg : pyval) : option config :=
  match arg with
  | PDict d => if contains "init_class" d then Some d else None
  | _ => None
  end.

(** [assert arg.pop("init_class") == cls.base_model_class.__name__]; yields
    the marker without its [init_class]. *)
Definition pop_marker (base_name : string) (arg : config) : M config :=
  let (v, arg') := pop "init_class" arg in
  match v with
  | Some v =>
      if py_eq_str v base_name then ret arg'
      else raise (AssertionError
                    ("pretrained base model should be " ++ base_name))
  | None => raise (KeyError "init_class")
  end.

(** Lines 198-206: the loop over [enumerate(init_args)], from index [i]. *)
Fixpoint search_args (base_name : string) (i : nat) (l : list pyval)
  : M (option (nat * config)) :=
  match l with
  | [] => ret None
  | arg :: r =>
      match is_marker arg with
      | Some d => d' <- pop_marker base_name d ;; ret (Some (i, d'))
      | None => search_args base_name (S i) r
      end
  end.

(** Lines 207-215: the loop over [init_kwargs.items()]. *)
Fixpoint search_kwargs (base_name : string) (items : list (string * pyval))
  : M (option (string * config)) :=
  match items with
  | [] => ret None
  | (arg_name, arg) :: r =>
      match is_marker arg with
      | Some d => d' <- pop_marker base_name d ;; ret (Some (arg_name, d'))
      | None => search_kwargs base_name r
      end
  end.

(** The element at [i] seen after the object it refers to was mutated. *)
Fixpoint list_update {A} (i : nat) (v : A) (l : list A) : list A :=
  match l, i with
  | [], _ => []
  | _ :: r, O => v :: r
  | x :: r, S i' => x :: list_update i' v r
  end.

Definition seen_at (idx : option arg_index) (v : pyval)
           (dargs : list pyval) (dkwargs : config)
  : list pyval * config :=
  match idx with
  | Some (AtPosition i) => (list_update i v dargs, dkwargs)
  | Some (AtKeyword n) => (dargs, set n v dkwargs)
  | None => (dargs, dkwargs)
  end.

(** Lines 182-218. [base] is [cls.base_model_class]. The markers are
    dictionaries held by [init_args] and [init_kwargs], and [derived_args],
    [derived_kwargs] refer to the same objects: each [pop] on a marker is
    seen through them. The second loop runs whatever the first one found. *)
Definition split_config (base : ctor) (init_kwargs : config) : M split :=
  let (ia, init_kwargs) := pop "init_args" init_kwargs in
  let init_args := match ia with Some v => v | None => PSeq [] end in
  let (ic, init_kwargs) := pop "init_class" init_kwargs in
  let init_class := match ic with Some v => v | None => PStr (c_name base) end in
  if py_eq_str init_class (c_name base) then
    ret (mkSplit init_args init_kwargs [] [] None)
  else
    dargs <- lift (py_iter init_args) ;;
    found_pos <- search_args (c_name base) 0 dargs ;;
    let idx1 := option_map (fun f => AtPosition (fst f)) found_pos in
    let arg1 := option_map snd found_pos in
    let (dargs, dkwargs) :=
      match arg1 with
      | Some d => seen_at idx1 (PDict d) dargs init_kwargs
      | None => (dargs, init_kwargs)
      end in
    found_kw <- search_kwargs (c_name base) dkwargs ;;
    let idx2 :=
      match found_kw with
      | Some f => Some (AtKeyword (fst f))
      | None => idx1
      end in
    let arg2 :=
      match found_kw with
      | Some f => Some (snd f)
      | None => arg1
      end in
    match arg2 with
    | None => raise AttributeError           (* [None.pop] *)
    | Some base_arg =>
        let (dargs, dkwargs) := seen_at idx2 (PDict base_arg) dargs dkwargs in
        let (ba, base_arg) := pop "init_args" base_arg in
        let (dargs, dkwargs) := seen_at idx2 (PDict base_arg) dargs dkwargs in
        ret (mkSplit (match ba with Some v => v | None => PSeq [] end)
                     base_arg dargs dkwargs idx2)
    end.

(** [for k, v in kwargs.items(): if k in parameters: target[k] = v] *)
Definition override_known (parameters : list string) (kwargs target : config)
  : config :=
  fold_left (fun acc (kv : string * pyval) =>
               if existsb (String.eqb (fst kv)) parameters
               then set (fst kv) (snd kv) acc else acc)
            kwargs target.

(** [x if not args else args] *)
Definition unless_given {A} (args : list A) (x : list A) : list A :=
  match args with [] => x | _ => args end.

(** Lines 219-241. Classes are compared by name. In the derived branch the
    later writes to [base_kwargs] would also be seen through the marker left
    in [derived_kwargs]; no path reads it there, since a keyword position
    raises at line 233. *)
Definition build_model (cls : pyclass) (base : ctor) (sp : split)
           (args : list pyval) (kwargs : config) : M model :=
  if c_name (c_self cls) =? c_name base then
    bargs <- match args with
             | [] => lift (py_iter (base_args sp))
             | _ => ret args
             end ;;
    construct (c_self cls) bargs (update (base_kwargs sp) kwargs)
  else
    let bkwargs := override_known (c_parameters base) kwargs (base_kwargs sp) in
    bargs <- lift (py_iter (base_args sp)) ;;
    base_model <- construct base bargs bkwargs ;;
    dargs <- match base_arg_index sp with
             | Some (AtPosition i) =>
                 lift (list_assign i (PModel base_model) (derived_args sp))
             | Some (AtKeyword _) => raise TypeError
             | None => ret [PModel base_model]
             end ;;
    let dargs := unless_given args dargs in
    let dkwargs :=
      override_known (c_parameters (c_self cls)) kwargs (derived_kwargs sp) in
    construct (c_self cls) dargs dkwargs.

(** What [from_pretrained] returns: the model in dynamic mode, otherwise the
    pair of the model and [state_to_load]. *)
Inductive loaded : Type :=
| ModelOnly (m : model)
| ModelAndState (m : model) (state_to_load : dict tensor).

Definition loaded_model (r : loaded) : model :=
  match r with ModelOnly m => m | ModelAndState m _ => m end.

(** [any(s.startswith(prefix) for s in state_dict.keys())] *)
Definition any_startswith (prefix : string) (state_dict : dict tensor) : bool :=
  existsb (fun s => PyStr.startswith s prefix) (keys state_dict).

(** Lines 259-265: the loop that strips [start_prefix] and collects the keys
    without the prefix. *)
Definition strip_prefix (prefix : string) (state_dict : dict tensor)
  : dict tensor * list string :=
  let start_prefix := prefix ++ "." in
  fold_left (fun (acc : dict tensor * list string) (kv : string * tensor) =>
               let (state_to_load, unexpected_keys) := acc in
               let (k, v) := kv in
               if PyStr.startswith k prefix then
                 (set (PyStr.drop (String.length start_prefix) k) v
                      state_to_load,
                  unexpected_keys)
               else (state_to_load, List.app unexpected_keys [k]))
            state_dict ([], []).

(** Lines 270-272 *)
Definition missing_of (prefix : string) (m : model) : list string :=
  filter (fun k => negb (PyStr.startswith k prefix))
         (keys (PaddleLayer.state_dict m)).

Definition weight_suffix : string := ".pdparams".

(** Lines 251-280: reconciling the prefixes and loading. Yields the model
    after [set_state_dict] and [state_to_load]. *)
Definition reconcile (cls : pyclass) (m : model) (state_dict : dict tensor)
  : M (model * dict tensor) :=
  let prefix := base_model_prefix cls in
  let has := PaddleLayer.hasattr m prefix in
  let carried := any_startswith prefix state_dict in
  let (state_to_load, unexpected_keys) :=
    if negb has && carried then strip_prefix prefix state_dict
    else (state_dict, []) in
  let into_base := has && negb carried in
  let missing_keys := if into_base then missing_of prefix m else [] in
  _ <- match missing_keys with
       | [] => ret tt
       | _ => emit (InfoMissing (l_class m) missing_keys)
       end ;;
  _ <- match unexpected_keys with
       | [] => ret tt
       | _ => emit (InfoUnexpected (l_class m) unexpected_keys)
       end ;;
  m' <- (if into_base then
           match PaddleLayer.getattr m prefix with
           | Some (PaddleLayer.AttrLayer model_to_load) =>
               ret (PaddleLayer.with_sub
                      prefix
                      (PaddleLayer.set_state_dict state_to_load model_to_load)
                      m)
           | _ => raise AttributeError     (* no [set_state_dict] on it *)
           end
         else ret (PaddleLayer.set_state_dict state_to_load m)) ;;
  ret (m', state_to_load).

(** Lines 243-247: the weight file is the first resolved resource. *)
Definition read_weights (w : world) (resolved_resource_files : dict string)
  : M (dict tensor) :=
  weight_path <- match values resolved_resource_files with
                 | [] => raise IndexError
                 | p :: _ => ret p
                 end ;;
  _ <- (if PyStr.endswith weight_path weight_suffix then ret tt
        else raise (AssertionError "suffix of weight must be .pdparams")) ;;
  lift (paddle_load w weight_path).

(** Lines 243-280. *)
Definition load_weights (w : world) (cls : pyclass) (m : model)
           (resolved_resource_files : dict string) : M (model * dict tensor) :=
  state_dict <- read_weights w resolved_resource_files ;;
  reconcile cls m state_dict.

(** Lines 129-218: everything before the first constructor call. *)
Definition configure (w : world) (cls : pyclass)
           (pretrained_model_name_or_path : string)
  : M (split * ctor * dict string) :=
  '(resource_files, init_configuration) <-
    locate_resources w cls pretrained_model_name_or_path ;;
  resolved_resource_files <-
    resolve_resources w pretrained_model_name_or_path resource_files ;;
  '(init_kwargs, resolved_resource_files) <-
    load_init_kwargs w resolved_resource_files init_configuration ;;
  base <- match base_model_class cls with
          | Some b => ret b
          | None => raise AttributeError
          end ;;
  sp <- split_config base init_kwargs ;;
  ret (sp, base, resolved_resource_files).

(** Lines 129-280: the model with its weights set, and [state_to_load]. *)
Definition load_pretrained (w : world) (cls : pyclass)
           (pretrained_model_name_or_path : string)
           (args : list pyval) (kwargs : config) : M (model * dict tensor) :=
  '(sp, base, resolved_resource_files) <-
    configure w cls pretrained_model_name_or_path ;;
  m <- build_model cls base sp args kwargs ;;
  load_weights w cls m resolved_resource_files.

(** Lines 281-283 *)
Definition returned (w : world) (r : model * dict tensor) : loaded :=
  let (m, state_to_load) := r in
  if in_dynamic_mode w then ModelOnly m else ModelAndState m state_to_load.

(** [PretrainedModel.from_pretrained(cls, name_or_path, *args, **kwargs)] *)
Definition from_pretrained (w : world) (cls : pyclass)
           (pretrained_model_name_or_path : string)
           (args : list pyval) (kwargs : config) : M loaded :=
  r <- load_pretrained w cls pretrained_model_name_or_path args kwargs ;;
  ret (returned w r).

(** ** [register_base_model] *)

Module Registry.

(** A class object: its [__name__] and its [__bases__]. *)
Inductive klass : Type :=
| Klass (name : string) (bases : list klass).

Definition k_name (c : klass) : string :=
  match c with Klass n _ => n end.
Definition k_bases (c : klass) : list klass :=
  match c with Klass _ b => b end.

(** [issubclass(c, target)]: [c] is [target] or inherits from it, directly
    or not. Classes are told apart by name. *)
Fixpoint issubclass (c : klass) (target : string) : bool :=
  match c with
  | Klass n bases =>
      (n =? target) || existsb (fun b => issubclass b target) bases
  end.

(** The [base_model_class] entries of the class dictionaries, by class
    name. *)
Definition attrs : Type := dict klass.

(** [B.base_model_class] for a class [B] that carries the attribute
    itself. *)
Definition own_base_model_class (st : attrs) (b : klass) : option klass :=
  get (k_name b) st.

Definition PretrainedModel : string := "PretrainedModel".

(** [register_base_model(cls)]: the class returned and the attributes
    after the call. *)
Definition register_base_model (st : attrs) (cls : klass)
  : outcome (klass * attrs) :=
  match k_bases cls with
  | [] => Raise IndexError
  | base_cls :: _ =>
      if issubclass base_cls PretrainedModel then
        Ok (cls, set (k_name base_cls) cls st)
      else
        Raise (AssertionError
                 "`register_base_model` should be used on subclasses of PretrainedModel.")
  end.

End Registry.

(** ** [PretrainedModel.save_model_config] *)

(** [json.dumps] accepts the JSON part of [pyval]; an object of a model class
    is not serializable. *)
Fixpoint serializable (v : pyval) : bool :=
  match v with
  | PSeq l => forallb serializable l
  | PDict d =>
      forallb (fun kv => match kv with (_, x) => serializable x end) d
  | PModel _ => false
  | _ => true
  end.

(** A document is kept as the value it denotes; [json.dumps] then only
    checks that the value can be written. *)
Definition json_dumps (v : pyval) : outcome pyval :=
  if serializable v then Ok v else Raise TypeError.

(** What a file holds: nothing yet (opened for writing), a JSON document,
    or a state written by the tensor runtime. *)
Inductive content : Type :=
| Blank
| Document (doc : pyval)
| Weights (state : dict tensor).

(** The files, by path. [can_open] tells whether a file can be opened for
    writing at a path. *)
Record disk : Type := mkDisk {
  can_open : string -> bool;
  files : dict content
}.

(** Reading a document back: [io.open] and [json.load]. *)
Definition json_read (d : disk) (path : string) : outcome pyval :=
  match get path (files d) with
  | Some (Document v) => Ok v
  | Some Blank => Raise (External "JSONDecodeError")
  | Some (Weights _) => Raise (External "UnicodeDecodeError")
  | None => Raise (External "FileNotFoundError")
  end.

(** The classes of the program, by name. *)
Definition class_table : Type := dict Registry.klass.

(** [isinstance(x, PretrainedModel)], decided by the class of [x]. *)
Definition isinstance_pretrained (classes : class_table) (x : model) : bool :=
  match get (l_class x) classes with
  | Some k => Registry.issubclass k Registry.PretrainedModel
  | None => false
  end.

(** [arg.init_config if isinstance(arg, PretrainedModel) else arg] *)
Definition own_config (classes : class_table) (v : pyval) : pyval :=
  match v with
  | PModel m =>
      if isinstance_pretrained classes m then PDict (l_init_config m) else v
  | _ => v
  end.

(** One turn of the loop of lines 296-305: the value that ends up under
    [key]. *)
Definition saved_value (classes : class_table) (key : string) (value : pyval)
  : outcome pyval :=
  if key =? "init_args" then
    match py_iter value with
    | Ok args => Ok (PSeq (map (own_config classes) args))
    | Raise e => Raise e
    end
  else Ok (own_config classes value).

(** The loop of lines 296-305 over the entries still to visit: [done] are
    the entries already rewritten in place. It yields the dictionary as the
    loop leaves it, also when it raises. *)
Fixpoint rewrite_config (classes : class_table) (done todo : config)
  : config * outcome unit :=
  match todo with
  | [] => (done, Ok tt)
  | (key, value) :: r =>
      match saved_value classes key value with
      | Ok v => rewrite_config classes (List.app done [(key, v)]) r
      | Raise e => (List.app done todo, Raise e)
      end
  end.

Definition with_init_config (c : config) (m : model) : model :=
  match m with
  | mkLayer cls _ params subs others => mkLayer cls c params subs others
  end.

(** [self.save_model_config(save_dir)]: [model_config] is the instance's own
    [init_config] object, so the instance keeps the rewritten dictionary.
    The file is opened, and so emptied, before [json.dumps] runs. *)
Definition save_model_config (classes : class_table) (cls : pyclass)
           (self : model) (save_dir : string) (d : disk)
  : model * disk * outcome unit :=
  let model_config_file := PyStr.path_join save_dir (model_config_file cls) in
  let (model_config, looped) :=
    rewrite_config classes [] (l_init_config self) in
  let self' := with_init_config model_config self in
  match looped with
  | Raise e => (self', d, Raise e)
  | Ok _ =>
      if can_open d model_config_file then
        let opened :=
          mkDisk (can_open d) (set model_config_file Blank (files d)) in
        match json_dumps (PDict model_config) with
        | Ok doc =>
            (self',
             mkDisk (can_open d)
                    (set model_config_file (Document doc) (files d)),
             Ok tt)
        | Raise e => (self', opened, Raise e)
        end
      else (self', d, Raise (External "OSError"))
  end.

(** ** A small architecture to run the code on *)

Module Tiny.

(** Modelled from the spec: the init tracker (in [utils.py]), which stores
    the arguments of the constructor call on the instance, in the layout
    [from_pretrained] and [save_model_config] read: the keyword arguments,
    the positional ones under [init_args], and the class name under
    [init_class]. *)
Definition tracked (name : string) (args : list pyval) (kwargs : config)
  : config :=
  let c := match args with
           | [] => kwargs
           | _ => set "init_args" (PSeq args) kwargs
           end in
  set "init_class" (PStr name) c.

(** [TinyModel(hidden_size=...)]: the encoder, with two parameters. *)
Definition TinyModel : ctor :=
  mkCtor "TinyModel"
         (fun args kwargs =>
            Ok (mkLayer "TinyModel" (tracked "TinyModel" args kwargs)
                        [("weight", 0%Z); ("bias", 0%Z)] [] []))
         ["self"; "hidden_size"].

Definition Linear : model :=
  mkLayer "Linear" [] [("weight", 7%Z); ("bias", 7%Z)] [] [].

(** [TinyForCls(tiny, num_labels=2)]: a head over the encoder, which it
    keeps as the sub-layer [tiny]. *)
Definition TinyForCls : ctor :=
  mkCtor "TinyForCls"
         (fun args kwargs =>
            match args, get "tiny" kwargs with
            | PModel b :: _, _ | [], Some (PModel b) =>
                Ok (mkLayer "TinyForCls" (tracked "TinyForCls" args kwargs)
                            [] [("tiny", b); ("classifier", Linear)] [])
            | _, _ => Raise TypeError
            end)
         ["self"; "tiny"; "num_labels"].

Definition class_with (c : ctor) (weights_file : string) : pyclass :=
  mkClass c "model_config.json"
          [("tiny-model", [("hidden_size", PInt 8)])]
          [("model_state", weights_file)]
          [("model_state", [("tiny-model", "https://host/tiny.pdparams")])]
          "tiny"
          (Some TinyModel).

Definition class_of (c : ctor) : pyclass :=
  class_with c "model_state.pdparams".

(** A world with one saved directory [saved], holding the configuration
    [doc] and the weights [state], named [weights]; the registered weights
    are already in the cache. *)
Definition world_of (dynamic : bool) (doc : pyval) (weights : string)
           (state : dict tensor) : world :=
  mkWorld "/home"
          (fun p => p =? "saved")
          (fun p => (p =? "saved/model_config.json") || (p =? weights))
          (fun p => p =? "/home/tiny-model/tiny.pdparams")
          (fun url root => Raise (External "offline"))
          (fun p => if p =? "saved/model_config.json" then Ok doc
                    else Raise (External "FileNotFoundError"))
          (fun p => if (p =? weights) then Ok state
                    else Raise (External "FileNotFoundError"))
          dynamic.

Definition base_state : dict tensor := [("weight", 3%Z); ("bias", 4%Z)].

Definition head_state : dict tensor :=
  [("tiny.weight", 3%Z); ("tiny.bias", 4%Z); ("classifier.weight", 5%Z)].

(** The configuration saved for a head whose encoder was passed by
    position. *)
Definition positional_doc : pyval :=
  PDict [("num_labels", PInt 2);
         ("init_args",
          PSeq [PDict [("hidden_size", PInt 8);
                       ("init_class", PStr "TinyModel")]]);
         ("init_class", PStr "TinyForCls")].

(** The configuration saved for a head built as
    [TinyForCls(tiny=TinyModel(hidden_size=8), num_labels=2)]. *)
Definition keyword_doc : pyval :=
  PDict [("tiny", PDict [("hidden_size", PInt 8);
                         ("init_class", PStr "TinyModel")]);
         ("num_labels", PInt 2);
         ("init_class", PStr "TinyForCls")].

(** A configuration with a marker in both places. *)
Definition both_config : config :=
  [("init_args",
    PSeq [PDict [("hidden_size", PInt 8); ("init_class", PStr "TinyModel")]]);
   ("tiny", PDict [("hidden_size", PInt 16);
                   ("init_class", PStr "TinyModel")]);
   ("init_class", PStr "TinyForCls")].

(** Instances as the constructors and the init tracker leave them. *)
Definition encoder : model :=
  mkLayer "TinyModel" (tracked "TinyModel" [] [("hidden_size", PInt 8)])
          [("weight", 0%Z); ("bias", 0%Z)] [] [].

Definition head : model :=
  mkLayer "TinyForCls"
          (tracked "TinyForCls" [PModel encoder] [("num_labels", PInt 2)])
          [] [("tiny", encoder); ("classifier", Linear)] [].

(** The head built with its encoder as a keyword argument:
    [TinyForCls(tiny=encoder, num_labels=2)]. *)
Definition head_by_keyword : model :=
  mkLayer "TinyForCls"
          (tracked "TinyForCls" []
                   [("tiny", PModel encoder); ("num_labels", PInt 2)])
          [] [("tiny", encoder); ("classifier", Linear)] [].

(** A model built around a head: [TinyPair(head)]. *)
Definition pair_model : model :=
  mkLayer "TinyPair" (tracked "TinyPair" [PModel head] [])
          [] [("first", head)] [].

(** A directory [out] that can be written to, still empty. *)
Definition out_disk : disk :=
  mkDisk (fun p => PyStr.startswith p "out/") [].

(** The class objects of the architecture. *)
Definition KPretrainedModel : Registry.klass :=
  Registry.Klass "PretrainedModel"
    [Registry.Klass "Layer" []; Registry.Klass "GenerationMixin" []].
Definition KTinyPretrainedModel : Registry.klass :=
  Registry.Klass "TinyPretrainedModel" [KPretrainedModel].
Definition KTinyModel : Registry.klass :=
  Registry.Klass "TinyModel" [KTinyPretrainedModel].

Definition KTinyForCls : Registry.klass :=
  Registry.Klass "TinyForCls" [KTinyPretrainedModel].
Definition KTinyPair : Registry.klass :=
  Registry.Klass "TinyPair" [KTinyPretrainedModel].
Definition KLinear : Registry.klass :=
  Registry.Klass "Linear" [Registry.Klass "Layer" []].

(** The classes by name: [Linear] is a layer of the runtime, not a
    pretrained model. *)
Definition classes : class_table :=
  [("TinyModel", KTinyModel); ("TinyForCls", KTinyForCls);
   ("TinyPair", KTinyPair); ("Linear", KLinear)].

(** A head that was given a plain layer as a keyword argument:
    [TinyForCls(encoder, classifier=Linear(...))]. *)
Definition head_with_layer : model :=
  mkLayer "TinyForCls"
          (tracked "TinyForCls" [PModel encoder]
                   [("classifier", PModel Linear)])
          [] [("tiny", encoder); ("classifier", Linear)] [].

End Tiny.

(** The world [w] run in dynamic ([true]) or static ([false]) mode. *)
Definition set_mode (dynamic : bool) (w : world) : world :=
  mkWorld (MODEL_HOME w) (isdir w) (isfile w) (path_exists w)
          (get_path_from_url w) (json_load w) (paddle_load w) dynamic.


(** ** Statements in the words of the specification *)

(** Follows the spec's words: "a value that is itself a mapping containing
    an [init_class] key", the first one among the positional arguments,
    with its index counted from [i]. *)
Fixpoint first_positional_marker (i : nat) (l : list pyval)
  : option (nat * config) :=
  match l with
  | [] => None
  | arg :: r =>
      match is_marker arg with
      | Some d => Some (i, d)
      | None => first_positional_marker (S i) r
      end
  end.

(** Follows the spec's words: the first such value among the keyword
    arguments, in insertion order, with its name. *)
Fixpoint first_keyword_marker (items : config) : option (string * config) :=
  match items with
  | [] => None
  | (arg_name, arg) :: r =>
      match is_marker arg with
      | Some d => Some (arg_name, d)
      | None => first_keyword_marker r
      end
  end.

(** The failed assertion of lines 200 and 209 *)
Definition wrong_base (base : ctor) : exn :=
  AssertionError ("pretrained base model should be " ++ c_name base).

(** The marker names the registered base-model class. *)
Definition marker_ok (base : ctor) (d : config) : bool :=
  match get "init_class" d with
  | Some v => py_eq_str v (c_name base)
  | None => false
  end.

(** [d.pop(key, ())] on a configuration: the value read. *)
Definition init_args_of (d : config) : pyval :=
  match get "init_args" d with Some v => v | None => PSeq [] end.

(** The base model's init configuration read off a marker [d]: the locals
    [base_args] and [base_kwargs] of line 217-218. *)
Definition taken_from (d : config) (sp : split) : Prop :=
  base_args sp = init_args_of (remove "init_class" d)
  /\ base_kwargs sp = remove "init_args" (remove "init_class" d).

(** Follows the spec's words: in a derived-class configuration "the first
    marker found, with positional occurrences taking precedence over keyword
    occurrences, is the one taken as the base model's init configuration". *)
Definition positional_marker_wins : Prop :=
  forall (base : ctor) (init_kwargs : config) (l : list pyval)
         (i : nat) (d : config) (tr : list event) (sp : split),
    py_eq_str (match get "init_class" init_kwargs with
               | Some v => v
               | None => PStr (c_name base)
               end) (c_name base) = false ->
    get "init_args" init_kwargs = Some (PSeq l) ->
    first_positional_marker 0 l = Some (i, d) ->
    split_config base init_kwargs = (tr, Ok sp) ->
    base_arg_index sp = Some (AtPosition i) /\ taken_from d sp.

(** Follows the spec's words: the init configuration "in which every value
    that is itself a pretrained-model instance, including each element of
    the [init_args] sequence, has been replaced by that nested instance's
    own init configuration". *)
Definition substituted_config (classes : class_table) (c : config) : config :=
  map (fun kv : string * pyval =>
         let (k, v) := kv in
         match k =? "init_args", v with
         | true, PSeq args => (k, PSeq (map (own_config classes) args))
         | _, _ => (k, own_config classes v)
         end) c.

(** The positional arguments of an init configuration form a sequence, as
    the init tracker stores them. *)
Definition init_args_is_seq (c : config) : Prop :=
  forall v, In ("init_args", v) c -> exists args, v = PSeq args.

(** Follows the spec's words: "for every model instance", saving writes
    that configuration, and reading the file back yields it. *)
Definition save_always_round_trips : Prop :=
  forall (classes : class_table) (cls : pyclass) (self : model)
         (save_dir : string) (d : disk),
    let path := PyStr.path_join save_dir (model_config_file cls) in
    can_open d path = true ->
    init_args_is_seq (l_init_config self) ->
    exists self' d',
      save_model_config classes cls self save_dir d = (self', d', Ok tt)
      /\ json_read d' path
         = Ok (PDict (substituted_config classes (l_init_config self))).

(** ** [PretrainedModel.save_pretrained] *)

Definition not_available (save_dir : string) : exn :=
  AssertionError ("save_dir (" ++ save_dir ++ ") is not available.").

(** Modelled from the spec: [paddle.save], "a tensor-runtime load/save
    primitive keyed by file path". Where it can write, the file at the path
    holds the state afterwards, whatever it held before. *)
Definition paddle_save (state : dict tensor) (path : string) (d : disk)
  : disk * outcome unit :=
  if can_open d path then
    (mkDisk (can_open d) (set path (Weights state) (files d)), Ok tt)
  else (d, Raise (External "OSError")).

(** [self.save_pretrained(save_dir)], lines 309-323. [dirs] tells which
    directories exist when the method is called. *)
Definition save_pretrained (classes : class_table) (cls : pyclass)
           (dirs : string -> bool) (self : model) (save_dir : string)
           (d : disk) : model * disk * outcome unit :=
  if dirs save_dir then
    let '(self', d', saved) :=
      save_model_config classes cls self save_dir d in
    match saved with
    | Raise e => (self', d', Raise e)
    | Ok _ =>
        match values (resource_files_names cls) with
        | [] => (self', d', Raise IndexError)
        | first_name :: _ =>
            let (d'', r) :=
              paddle_save (PaddleLayer.state_dict self')
                          (PyStr.path_join save_dir first_name) d' in
            (self', d'', r)
        end
    end
  else (self, d, Raise (not_available save_dir)).

(** The world that reads the files of [d], with the directories [dirs]:
    nothing can be downloaded. *)
Definition world_on (dirs : string -> bool) (d : disk)
           (home : string) (dynamic : bool) : world :=
  mkWorld home
          dirs
          (fun p => contains p (files d))
          (fun p => contains p (files d) || dirs p)
          (fun _ _ => Raise (External "offline"))
          (json_read d)
          (fun p => match get p (files d) with
                    | Some (Weights sd) => Ok sd
                    | Some _ => Raise (External "UnpicklingError")
                    | None => Raise (External "FileNotFoundError")
                    end)
          dynamic.

(** ** Further notions used by the properties *)

(** [PretrainedModel.model_name_list], lines 97-99 *)
Definition model_name_list (cls : pyclass) : list string :=
  keys (pretrained_init_configuration cls).

(** Line 160: where a resource is looked for in the cache. *)
Definition cache_path (w : world) (name file_path : string) : string :=
  PyStr.path_join (PyStr.path_join (MODEL_HOME w) name)
                  (PyStr.last_segment file_path).

(** The resource found without the downloader: the file itself when it is
    there, else its copy in the cache. *)
Definition found_locally (w : world) (name file_path : string) : string :=
  if isfile w file_path then file_path else cache_path w name file_path.

(** The URL registered for [name] in a resource map. *)
Definition url_of (name : string) (kv : string * dict string)
  : string * string :=
  (fst kv, match get name (snd kv) with Some u => u | None => "" end).

Definition is_construct (ev : event) : bool :=
  match ev with Construct _ _ _ => true | _ => false end.

(** A computation that calls no constructor. *)
Definition quiet {A} (m : M A) : Prop :=
  forall ev, In ev (fst m) -> is_construct ev = false.

(** [k in parameters] *)
Definition is_parameter (parameters : list string) (k : string) : bool :=
  existsb (String.eqb k) parameters.

(** More of the small architecture. *)
Module TinyMore.

(** The directory [saved] exists; the disk is empty and writable. *)
Definition saved_exists : string -> bool := fun p => p =? "saved".

Definition open_disk : disk := mkDisk (fun _ => true) [].

(** The state of a head that keeps a second layer as [tiny_head]: both keys
    start with the prefix [tiny], one of them without the dot. *)
Definition undotted_state : dict tensor :=
  [("tiny.weight", 3%Z); ("tiny_head.weight", 5%Z)].

(** A class that leaves [base_model_prefix] at its default, the empty
    string. *)
Definition no_prefix_class : pyclass :=
  mkClass Tiny.TinyModel "model_config.json"
          [("tiny-model", [("hidden_size", PInt 8)])]
          [("model_state", "model_state.pdparams")]
          [("model_state", [("tiny-model", "https://host/tiny.pdparams")])]
          ""
          (Some Tiny.TinyModel).

(** A world in which nothing is on disk and the downloader fails. *)
Definition offline_world : world :=
  mkWorld "/home" (fun _ => false) (fun _ => false) (fun _ => false)
          (fun _ _ => Raise (External "offline"))
          (fun _ => Raise (External "FileNotFoundError"))
          (fun _ => Raise (External "FileNotFoundError"))
          true.

(** A class with no resource file of its own. *)
Definition no_resources_class : pyclass :=
  mkClass Tiny.TinyModel "model_config.json" [] [] [] "tiny"
          (Some Tiny.TinyModel).

(** A world whose directory [saved] holds a configuration file only. *)
Definition config_only_world : world :=
  mkWorld "/home" (fun p => p =? "saved")
          (fun p => p =? "saved/model_config.json")
          (fun p => p =? "saved/model_config.json")
          (fun _ _ => Raise (External "offline"))
          (fun _ => Ok (PDict [("hidden_size", PInt 8)]))
          (fun _ => Raise (External "FileNotFoundError"))
          true.

End TinyMore.

(** * Properties *)

(** ** Strings and dictionaries *)

Module PyStrFacts.
Import PyStr.

Lemma append_assoc (a b c : string) : (a ++ b) ++ c = a ++ (b ++ c).
Proof. induction a as [|x a IH]; simpl; [reflexivity | now rewrite IH]. Qed.

Lemma startswith_app (p r : string) : startswith (p ++ r) p = true.
Proof.
  unfold startswith. induction p as [|c p IH]; simpl.
  - destruct r; reflexivity.
  - destruct (ascii_dec c c) as [_|n]; [exact IH | now elim n].
Qed.

Lemma startswith_split (s p : string) :
  startswith s p = true -> exists r, s = p ++ r.
Proof.
  unfold startswith. revert s. induction p as [|c p IH]; intros s H.
  - exists s. reflexivity.
  - destruct s as [|c' s]; simpl in H; [discriminate|].
    destruct (ascii_dec c c') as [->|_]; [|discriminate].
    destruct (IH s H) as [r ->]. exists r. reflexivity.
Qed.

Lemma startswith_longer (s p q : string) :
  startswith s (p ++ q) = true -> startswith s p = true.
Proof.
  intros H. destruct (startswith_split _ _ H) as [r ->].
  rewrite append_assoc. apply startswith_app.
Qed.

Lemma drop_app (p r : string) : drop (String.length p) (p ++ r) = r.
Proof.
  induction p as [|c p IH]; simpl; [now destruct r | exact IH].
Qed.

(** Slicing [len(prefix + ".")] characters off a key under [prefix + "."]
    leaves the path below the prefix. *)
Lemma drop_start_prefix (prefix rest : string) :
  drop (String.length (prefix ++ ".")) (prefix ++ "." ++ rest) = rest.
Proof.
  rewrite <- (append_assoc prefix "." rest). apply drop_app.
Qed.

End PyStrFacts.

Module DictFacts.

Section Facts.
Context {V : Type}.
Implicit Types (d e : dict V) (k : string) (v : V).

Lemma get_app k d e :
  get k (d ++ e)%list =
  match get k d with Some v => Some v | None => get k e end.
Proof.
  induction d as [|[k' v'] d IH]; simpl; [reflexivity|].
  destruct (k' =? k); [reflexivity | exact IH].
Qed.

Lemma get_None k d : get k d = None <-> ~ In k (keys d).
Proof.
  induction d as [|[k' v'] d IH]; simpl.
  - tauto.
  - destruct (String.eqb_spec k' k) as [->|n].
    + split; [discriminate | intros H; elim H; now left].
    + rewrite IH. split; [intros H [E|I]; [now elim n | now elim H]
                         | intros H I; apply H; now right].
Qed.

Lemma get_set_same k v d : get k (set k v d) = Some v.
Proof.
  induction d as [|[k' v'] d IH]; simpl.
  - now rewrite String.eqb_refl.
  - destruct (k' =? k) eqn:E; simpl; rewrite E; [reflexivity | exact IH].
Qed.

Lemma get_set_other k k' v d :
  k' <> k -> get k' (set k v d) = get k' d.
Proof.
  intros n. induction d as [|[k0 v0] d IH]; simpl.
  - destruct (String.eqb_spec k k'); [now elim n | reflexivity].
  - destruct (String.eqb_spec k0 k) as [->|n0]; simpl.
    + destruct (String.eqb_spec k k'); [now elim n | reflexivity].
    + destruct (k0 =? k'); [reflexivity | exact IH].
Qed.

Lemma get_set k k' v d :
  get k' (set k v d) = if k =? k' then Some v else get k' d.
Proof.
  destruct (String.eqb_spec k k') as [->|n].
  - apply get_set_same.
  - apply get_set_other. congruence.
Qed.

(** Of several writes to one key the last one is read. *)
Lemma get_fold_set k (l : list (string * V)) d :
  get k (fold_left (fun acc kv => set (fst kv) (snd kv) acc) l d) =
  match get k (rev l) with Some v => Some v | None => get k d end.
Proof.
  revert d. induction l as [|[k' v'] l IH]; intros d; simpl.
  - reflexivity.
  - rewrite IH, get_app. simpl.
    destruct (get k (rev l)); [reflexivity|].
    rewrite get_set. destruct (k' =? k); reflexivity.
Qed.

Lemma get_In k v d : get k d = Some v -> In (k, v) d.
Proof.
  induction d as [|[k' v'] d IH]; simpl; [discriminate|].
  destruct (String.eqb_spec k' k) as [->|_].
  - intros [= ->]. now left.
  - intros H. right. exact (IH H).
Qed.

Lemma In_get k v d : NoDup (keys d) -> In (k, v) d -> get k d = Some v.
Proof.
  induction d as [|[k' v'] d IH]; simpl; [tauto|].
  intros ND [E|I].
  - injection E as -> ->. now rewrite String.eqb_refl.
  - inversion ND as [|? ? NI ND']; subst.
    destruct (String.eqb_spec k' k) as [->|_].
    + elim NI. change k with (fst (k, v)). now apply in_map.
    + exact (IH ND' I).
Qed.

(** A dictionary is read the same from either end. *)
Lemma get_rev k d : NoDup (keys d) -> get k (rev d) = get k d.
Proof.
  intros ND. destruct (get k d) as [v|] eqn:E.
  - apply In_get.
    + unfold keys. rewrite map_rev. apply NoDup_rev. exact ND.
    + apply -> in_rev. now apply get_In.
  - apply get_None. apply get_None in E. intros I. apply E.
    unfold keys in *. rewrite map_rev in I. now apply in_rev.
Qed.

(** [d.update(e)]: the entries of [e] win, key by key. *)
Lemma get_update k d e :
  NoDup (keys e) ->
  get k (update d e) =
  match get k e with Some v => Some v | None => get k d end.
Proof.
  intros ND. unfold update. rewrite get_fold_set, (get_rev k e ND).
  reflexivity.
Qed.

End Facts.

End DictFacts.

(** ** The monad *)

Lemma bind_Ok {A B} (tr : list event) (a : A) (f : A -> M B) :
  bind (tr, Ok a) f = ((tr ++ fst (f a))%list, snd (f a)).
Proof. simpl. destruct (f a). reflexivity. Qed.

Lemma bind_Raise {A B} (tr : list event) (e : exn) (f : A -> M B) :
  bind (tr, Raise e) f = (tr, Raise e).
Proof. reflexivity. Qed.

Lemma bind_ret_l {A B} (a : A) (f : A -> M B) : bind (ret a) f = f a.
Proof. unfold ret. simpl. destruct (f a). reflexivity. Qed.

Lemma bind_assoc {A B C} (m : M A) (f : A -> M B) (g : B -> M C) :
  bind (bind m f) g = bind m (fun a => bind (f a) g).
Proof.
  destruct m as [tr [a|e]]; simpl; [|reflexivity].
  destruct (f a) as [tr1 [b|e]]; simpl; [|reflexivity].
  destruct (g b) as [tr2 r]. now rewrite app_assoc.
Qed.

(** A computation that ends well ran both of its halves. *)
Lemma bind_Ok_inv {A B} (m : M A) (f : A -> M B) tr (b : B) :
  bind m f = (tr, Ok b) ->
  exists tr1 a tr2,
    m = (tr1, Ok a) /\ f a = (tr2, Ok b) /\ tr = (tr1 ++ tr2)%list.
Proof.
  destruct m as [tr1 [a|e]]; simpl; [|discriminate].
  destruct (f a) as [tr2 r] eqn:E. intros [= <- ->].
  now exists tr1, a, tr2.
Qed.

(** ** Unknown identifiers *)

Lemma append_nil_r (s : string) : s ++ "" = s.
Proof. induction s as [|c s IH]; simpl; [reflexivity | now rewrite IH]. Qed.

Lemma join_mentions (q : string -> string) (sep k : string) (ks : list string) :
  In k ks -> exists pre post, PyStr.join sep (map q ks) = pre ++ q k ++ post.
Proof.
  induction ks as [|a ks IH]; intros I; [destruct I|].
  destruct I as [<-|I].
  - destruct ks as [|b ks].
    + exists "", "". simpl. now rewrite append_nil_r.
    + exists "", (sep ++ PyStr.join sep (map q (b :: ks))). reflexivity.
  - destruct (IH I) as (pre & post & E).
    destruct ks as [|b ks]; [destruct I|].
    exists (q a ++ sep ++ pre), post.
    change (PyStr.join sep (map q (a :: b :: ks)))
      with (q a ++ sep ++ PyStr.join sep (map q (b :: ks))).
    rewrite E. now rewrite !PyStrFacts.append_assoc.
Qed.

Lemma message_lists_names (cls_name got k : string) (names : list string) :
  In k names ->
  exists pre post,
    unknown_identifier_message cls_name names got
    = pre ++ ("'" ++ k ++ "'") ++ post.
Proof.
  intros I.
  destruct (join_mentions (fun k => "'" ++ k ++ "'") ", " k names I)
    as (pre & post & E).
  unfold unknown_identifier_message, repr_keys. rewrite E.
  exists ("Calling " ++ cls_name ++
          ".from_pretrained() with a model identifier or the " ++
          "path to a directory instead. The supported model " ++
          "identifiers are as follows: " ++ "dict_keys([" ++ pre),
         (post ++ "])" ++ ", but got: " ++ got).
  now rewrite !PyStrFacts.append_assoc.
Qed.

(** C7. A [name_or_path] that is neither a key of the class's pretrained
    registry nor an existing directory makes [from_pretrained] raise a
    [ValueError]; its message is the format string filled with the class
    name, the registry names and the identifier, so every registry name
    occurs in it; and the trace is empty: no constructor was called. *)
Theorem from_pretrained_unknown_identifier
        (w : world) (cls : pyclass) (name : string)
        (args : list pyval) (kwargs : config) :
  ~ In name (keys (pretrained_init_configuration cls)) ->
  isdir w name = false ->
  let names := keys (pretrained_init_configuration cls) in
  let msg := unknown_identifier_message (c_name (c_self cls)) names name in
  from_pretrained w cls name args kwargs = ([], Raise (ValueError msg))
  /\ (forall k, In k names ->
                exists pre post, msg = pre ++ ("'" ++ k ++ "'") ++ post)
  /\ (forall c a kw,
         ~ In (Construct c a kw) (fst (from_pretrained w cls name args kwargs))).
Proof.
  intros NI ND names msg.
  assert (E : from_pretrained w cls name args kwargs
              = ([], Raise (ValueError msg))).
  { unfold from_pretrained, load_pretrained, configure, locate_resources.
    apply DictFacts.get_None in NI. rewrite NI, ND. reflexivity. }
  split; [exact E|]. split.
  - intros k I. now apply message_lists_names.
  - intros c a kw. rewrite E. simpl. tauto.
Qed.

Lemma from_pretrained_unknown_identifier_witness :
  from_pretrained (Tiny.world_of true PNone "x" [])
                  (Tiny.class_of Tiny.TinyForCls) "nowhere" [] []
  = ([], Raise (ValueError
                  (unknown_identifier_message "TinyForCls" ["tiny-model"]
                                              "nowhere"))).
Proof.
  refine (proj1 (from_pretrained_unknown_identifier
                   (Tiny.world_of true PNone "x" [])
                   (Tiny.class_of Tiny.TinyForCls) "nowhere" [] [] _ _)).
  - simpl. intros [H|[]]. discriminate H.
  - reflexivity.
Defined.

(** ** Registration *)

Module RegistryFacts.
Import Registry.

(** C9. For a class [D] whose first declared parent is [B],
    [register_base_model] checks that [B] is a subclass of the
    pretrained-model base, directly or not: if so it returns [D] itself
    and [B.base_model_class] is [D] afterwards, and registering a class
    [E] with the same first parent later makes it [E]; if not it raises
    an assertion error. *)
Theorem register_base_model_last_wins
        (st : attrs) (D B : klass) (others : list klass) :
  k_bases D = B :: others ->
  (issubclass B PretrainedModel = true ->
   exists st',
     register_base_model st D = Ok (D, st')
     /\ own_base_model_class st' B = Some D
     /\ forall (E : klass) (others' : list klass),
         k_bases E = B :: others' ->
         exists st'',
           register_base_model st' E = Ok (E, st'')
           /\ own_base_model_class st'' B = Some E)
  /\ (issubclass B PretrainedModel = false ->
      exists msg, register_base_model st D = Raise (AssertionError msg)).
Proof.
  intros HB. split; intros HS.
  - exists (set (k_name B) D st). unfold register_base_model.
    rewrite HB, HS. repeat split.
    + apply DictFacts.get_set_same.
    + intros E others' HE. exists (set (k_name B) E (set (k_name B) D st)).
      unfold register_base_model. rewrite HE, HS. split; [reflexivity|].
      apply DictFacts.get_set_same.
  - unfold register_base_model. rewrite HB, HS. eauto.
Qed.

Lemma register_base_model_last_wins_witness :
  exists st',
    register_base_model [] Tiny.KTinyModel = Ok (Tiny.KTinyModel, st')
    /\ own_base_model_class st' Tiny.KTinyPretrainedModel
       = Some Tiny.KTinyModel
    /\ forall (E : klass) (others' : list klass),
        k_bases E = Tiny.KTinyPretrainedModel :: others' ->
        exists st'',
          register_base_model st' E = Ok (E, st'')
          /\ own_base_model_class st'' Tiny.KTinyPretrainedModel = Some E.
Proof.
  apply (proj1 (register_base_model_last_wins
                  [] Tiny.KTinyModel Tiny.KTinyPretrainedModel [] eq_refl)).
  reflexivity.
Defined.

End RegistryFacts.

(** ** What is returned *)


(** The state that [reconcile] yields is the one it set, on the model or on
    its nested base model. *)
Lemma reconcile_sets (cls : pyclass) (m m' : model)
      (state_dict st : dict tensor) (tr : list event) :
  reconcile cls m state_dict = (tr, Ok (m', st)) ->
  m' = PaddleLayer.set_state_dict st m
  \/ exists sub,
      PaddleLayer.getattr m (base_model_prefix cls)
      = Some (PaddleLayer.AttrLayer sub)
      /\ m' = PaddleLayer.with_sub (base_model_prefix cls)
                                   (PaddleLayer.set_state_dict st sub) m.
Proof.
  unfold reconcile.
  destruct (if negb _ && _ then _ else _) as [stl unexpected].
  intros H.
  apply bind_Ok_inv in H as (tr1 & [] & tr2 & _ & H & _).
  apply bind_Ok_inv in H as (tr3 & [] & tr4 & _ & H & _).
  apply bind_Ok_inv in H as (tr5 & m0 & tr6 & H & H' & _).
  injection H' as _ -> ->.
  destruct (_ && _).
  - destruct (PaddleLayer.getattr m (base_model_prefix cls))
      as [[|t|sub]|]; try discriminate H.
    injection H as _ <-. right. now exists sub.
  - injection H as _ <-. now left.
Qed.




(** Both shapes occur. *)
Example from_pretrained_dynamic :
  snd (from_pretrained
         (Tiny.world_of true PNone "/home/tiny-model/tiny.pdparams"
                        Tiny.base_state)
         (Tiny.class_of Tiny.TinyModel) "tiny-model" [] [])
  = Ok (ModelOnly
          (mkLayer "TinyModel"
                   [("hidden_size", PInt 8); ("init_class", PStr "TinyModel")]
                   [("weight", 3%Z); ("bias", 4%Z)] [] [])).
Proof. reflexivity. Qed.

Example from_pretrained_static :
  snd (from_pretrained
         (Tiny.world_of false PNone "/home/tiny-model/tiny.pdparams"
                        Tiny.base_state)
         (Tiny.class_of Tiny.TinyModel) "tiny-model" [] [])
  = Ok (ModelAndState
          (mkLayer "TinyModel"
                   [("hidden_size", PInt 8); ("init_class", PStr "TinyModel")]
                   [("weight", 3%Z); ("bias", 4%Z)] [] [])
          Tiny.base_state).
Proof. reflexivity. Qed.

(** ** The weight file *)

Lemma set_mode_same (w : world) : set_mode (in_dynamic_mode w) w = w.
Proof. destruct w. reflexivity. Qed.

Lemma string_length_app (a b : string) :
  String.length (a ++ b) = String.length a + String.length b.
Proof. induction a as [|c a IH]; simpl; [reflexivity | now rewrite IH]. Qed.

Lemma drop_split (n : nat) (s : string) : exists pre, s = pre ++ PyStr.drop n s.
Proof.
  revert s. induction n as [|n IH]; intros s.
  - exists "". now destruct s.
  - destruct s as [|c s]; [now exists ""|].
    destruct (IH s) as [pre E]. exists (String c pre). simpl. now rewrite <- E.
Qed.

(** [endswith] holds exactly of the strings that end with the suffix. *)
Lemma endswith_spec (s suf : string) :
  PyStr.endswith s suf = true <-> exists pre, s = pre ++ suf.
Proof.
  unfold PyStr.endswith. split.
  - intros H. apply andb_true_iff in H as [_ H].
    apply String.eqb_eq in H.
    destruct (drop_split (String.length s - String.length suf) s) as [pre E].
    exists pre. now rewrite H in E.
  - intros [pre ->]. rewrite string_length_app. apply andb_true_iff. split.
    + apply Nat.leb_le. lia.
    + replace (String.length pre + String.length suf - String.length suf)
        with (String.length pre) by lia.
      rewrite PyStrFacts.drop_app. apply String.eqb_refl.
Qed.

(** Once the model is built, the call goes on with the weights. *)
Lemma from_pretrained_built
      (w : world) (cls : pyclass) (name : string)
      (args : list pyval) (kwargs : config)
      (tr tr' : list event) (sp : split) (base : ctor)
      (resolved : dict string) (m : model) :
  configure w cls name = (tr, Ok (sp, base, resolved)) ->
  build_model cls base sp args kwargs = (tr', Ok m) ->
  from_pretrained w cls name args kwargs
  = bind ((tr ++ tr')%list, Ok tt)
         (fun _ => r <- load_weights w cls m resolved ;; ret (returned w r)).
Proof.
  intros HC HB. unfold from_pretrained, load_pretrained.
  rewrite HC, bind_assoc. rewrite bind_Ok. cbv beta iota.
  rewrite bind_assoc, HB.
  destruct (bind (load_weights w cls m resolved) (fun r => ret (returned w r)))
    as [tr2 r2] eqn:E.
  rewrite !bind_Ok. cbv beta. rewrite E. simpl.
  now rewrite <- app_assoc.
Qed.

(** C6. With the model built, [from_pretrained] takes the first value of the
    resolved-resource mapping, in insertion order, as the weight file: a
    name that does not end with [.pdparams] raises an assertion error, and
    otherwise the state that is reconciled with the model is the one
    [paddle.load] reads from that file. *)
Theorem weights_from_first_resource
        (w : world) (cls : pyclass) (name : string)
        (args : list pyval) (kwargs : config)
        (tr tr' : list event) (sp : split) (base : ctor)
        (resolved : dict string) (m : model)
        (file_id weight_path : string) (others : dict string) :
  configure w cls name = (tr, Ok (sp, base, resolved)) ->
  build_model cls base sp args kwargs = (tr', Ok m) ->
  resolved = (file_id, weight_path) :: others ->
  ((~ exists stem, weight_path = stem ++ ".pdparams") ->
   from_pretrained w cls name args kwargs
   = ((tr ++ tr')%list,
      Raise (AssertionError "suffix of weight must be .pdparams")))
  /\ ((exists stem, weight_path = stem ++ ".pdparams") ->
      from_pretrained w cls name args kwargs
      = bind ((tr ++ tr')%list, paddle_load w weight_path)
             (fun state_dict =>
                r <- reconcile cls m state_dict ;; ret (returned w r))).
Proof.
  intros HC HB ->.
  rewrite (from_pretrained_built _ _ _ _ _ _ _ _ _ _ _ HC HB).
  unfold load_weights, read_weights. cbn [values map snd].
  rewrite bind_ret_l.
  split; intros H.
  - destruct (PyStr.endswith weight_path weight_suffix) eqn:E.
    + elim H. now apply endswith_spec.
    + simpl. now rewrite app_nil_r.
  - apply endswith_spec in H. fold weight_suffix in H. rewrite H.
    rewrite bind_ret_l.
    destruct (paddle_load w weight_path) as [sd|e]; simpl.
    + destruct (reconcile cls m sd) as [tr2 [r|e]]; simpl;
        now rewrite ?app_nil_r.
    + now rewrite app_nil_r.
Qed.

(** ** Reconciling the prefixes *)

Module LayerFacts.
Import PaddleLayer.

Lemma getattr_layer {C} (m sub : Layer C) (n : string) :
  getattr m n = Some (AttrLayer sub) -> get n (l_subs m) = Some sub.
Proof.
  unfold getattr. destruct (existsb _ _); [discriminate|].
  destruct (get n (l_params m)); [discriminate|].
  destruct (get n (l_subs m)); [|discriminate].
  now intros [= ->].
Qed.

Lemma hasattr_getattr {C} (m : Layer C) (n : string) (a : attr C) :
  getattr m n = Some a -> hasattr m n = true.
Proof. unfold hasattr. now intros ->. Qed.

Lemma below_inside {C} (n : string) (s : Layer C) :
  filter (outside n) (below n s) = [].
Proof.
  unfold below. induction (state_dict s) as [|[k t] l IH];
    cbn [map filter fst snd]; [reflexivity|].
  unfold outside at 1. cbn [fst].
  rewrite <- (PyStrFacts.append_assoc n "." k), PyStrFacts.startswith_app.
  exact IH.
Qed.

Lemma state_dict_eq {C} (m : Layer C) :
  state_dict m
  = (l_params m ++ flat_map (fun ns => below (fst ns) (snd ns)) (l_subs m))%list.
Proof.
  destruct m as [c cfg params subs others]. simpl. f_equal.
  apply flat_map_ext. now intros [n s].
Qed.

(** Replacing the sub-layer [n] changes no entry outside [n + "."]. *)
Lemma with_sub_outside {C} (m s s' : Layer C) (n : string) :
  get n (l_subs m) = Some s ->
  filter (outside n) (state_dict (with_sub n s' m))
  = filter (outside n) (state_dict m).
Proof.
  intros H. rewrite !state_dict_eq.
  destruct m as [c cfg params subs others]. simpl in *.
  rewrite !filter_app. f_equal.
  induction subs as [|[k0 s0] subs IH]; simpl in *; [discriminate|].
  destruct (String.eqb_spec k0 n) as [->|_]; simpl.
  - now rewrite !filter_app, !below_inside.
  - rewrite !filter_app. f_equal. exact (IH H).
Qed.

Lemma get_filter {V} (P : string -> bool) (k : string) (d : dict V) :
  P k = true -> get k (filter (fun kv => P (fst kv)) d) = get k d.
Proof.
  intros HP. induction d as [|[k' v] d IH]; simpl; [reflexivity|].
  destruct (String.eqb_spec k' k) as [->|n].
  - rewrite HP. simpl. now rewrite String.eqb_refl.
  - destruct (P k'); simpl; [|exact IH].
    destruct (String.eqb_spec k' k); [contradiction | exact IH].
Qed.

End LayerFacts.

(** What the loop of lines 261-265 leaves: the keys without the prefix, in
    order, and the writes of the stripped keys. *)
Lemma strip_prefix_fold (prefix : string) (sd acc : dict tensor)
      (unexpected : list string) :
  fold_left (fun (acc : dict tensor * list string) (kv : string * tensor) =>
               let (state_to_load, unexpected_keys) := acc in
               let (k, v) := kv in
               if PyStr.startswith k prefix then
                 (set (PyStr.drop (String.length (prefix ++ ".")) k) v
                      state_to_load,
                  unexpected_keys)
               else (state_to_load, List.app unexpected_keys [k]))
            sd (acc, unexpected)
  = (fold_left (fun acc kv => set (fst kv) (snd kv) acc)
               (map (fun kv => (PyStr.drop (String.length (prefix ++ "."))
                                           (fst kv), snd kv))
                    (filter (fun kv => PyStr.startswith (fst kv) prefix) sd))
               acc,
     (unexpected
      ++ filter (fun k => negb (PyStr.startswith k prefix)) (keys sd))%list).
Proof.
  revert acc unexpected.
  induction sd as [|[k v] sd IH]; intros acc unexpected; simpl.
  - now rewrite app_nil_r.
  - destruct (PyStr.startswith k prefix); simpl; rewrite IH.
    + reflexivity.
    + now rewrite <- app_assoc.
Qed.

Lemma strip_prefix_spec (prefix : string) (sd : dict tensor) :
  snd (strip_prefix prefix sd)
  = filter (fun k => negb (PyStr.startswith k prefix)) (keys sd)
  /\ forall k,
      get k (fst (strip_prefix prefix sd))
      = get k (rev (map (fun kv =>
                           (PyStr.drop (String.length (prefix ++ "."))
                                       (fst kv), snd kv))
                        (filter (fun kv => PyStr.startswith (fst kv) prefix)
                                sd))).
Proof.
  unfold strip_prefix. rewrite strip_prefix_fold. simpl. split; [reflexivity|].
  intros k. rewrite DictFacts.get_fold_set. simpl.
  now destruct (get k _).
Qed.

Lemma all_then_any (prefix : string) (sd : dict tensor) :
  forallb (fun s => PyStr.startswith s prefix) (keys sd) = true ->
  sd = [] \/ any_startswith prefix sd = true.
Proof.
  destruct sd as [|[k v] sd]; [now left|]. simpl.
  intros H. apply andb_true_iff in H as [H _]. right.
  unfold any_startswith. simpl. now rewrite H.
Qed.

Lemma reconcile_into_base (cls : pyclass) (m sub : model) (sd : dict tensor) :
  PaddleLayer.getattr m (base_model_prefix cls)
  = Some (PaddleLayer.AttrLayer sub) ->
  any_startswith (base_model_prefix cls) sd = false ->
  reconcile cls m sd
  = (match missing_of (base_model_prefix cls) m with
     | [] => []
     | ks => [InfoMissing (l_class m) ks]
     end,
     Ok (PaddleLayer.with_sub (base_model_prefix cls)
                              (PaddleLayer.set_state_dict sd sub) m,
         sd)).
Proof.
  intros HG HA. unfold reconcile.
  rewrite (LayerFacts.hasattr_getattr _ _ _ HG), HA, HG. cbn [negb andb].
  destruct (missing_of (base_model_prefix cls) m); reflexivity.
Qed.

Lemma reconcile_stripped (cls : pyclass) (m : model) (sd : dict tensor) :
  PaddleLayer.hasattr m (base_model_prefix cls) = false ->
  sd = [] \/ any_startswith (base_model_prefix cls) sd = true ->
  let stripped := strip_prefix (base_model_prefix cls) sd in
  reconcile cls m sd
  = (match snd stripped with
     | [] => []
     | ks => [InfoUnexpected (l_class m) ks]
     end,
     Ok (PaddleLayer.set_state_dict (fst stripped) m, fst stripped)).
Proof.
  intros HH HA stripped. unfold reconcile. rewrite HH. cbn [negb andb].
  destruct HA as [->|HA].
  - reflexivity.
  - rewrite HA. fold stripped. destruct stripped as [stl [|u us]]; reflexivity.
Qed.

Section Loaded.

(** A call whose configuration was split into [sp], whose model [m] was
    built, and whose weight file [weight_path], the first resolved
    resource, was read as [sd]. *)
Variables (w : world) (cls : pyclass) (name : string).
Variables (args : list pyval) (kwargs : config).
Variables (tr tr' : list event) (sp : split) (base : ctor).
Variables (resolved others : dict string) (file_id weight_path : string).
Variables (m : model) (sd : dict tensor).

Hypothesis configured :
  configure w cls name = (tr, Ok (sp, base, resolved)).
Hypothesis built : build_model cls base sp args kwargs = (tr', Ok m).
Hypothesis first_resource : resolved = (file_id, weight_path) :: others.
Hypothesis suffix_ok : PyStr.endswith weight_path weight_suffix = true.
Hypothesis weights_read : paddle_load w weight_path = Ok sd.

Local Abbreviation prefix := (base_model_prefix cls).

Lemma from_pretrained_read :
  from_pretrained w cls name args kwargs
  = bind ((tr ++ tr')%list, Ok tt)
         (fun _ => r <- reconcile cls m sd ;; ret (returned w r)).
Proof.
  rewrite (from_pretrained_built _ _ _ _ _ _ _ _ _ _ _ configured built).
  unfold load_weights, read_weights.
  rewrite first_resource. cbn [values map snd].
  rewrite bind_ret_l, suffix_ok, bind_ret_l, weights_read.
  unfold lift. fold (@ret (dict tensor) sd). now rewrite bind_ret_l.
Qed.

(** C1. When the constructed model has the attribute [base_model_prefix],
    holding the nested base model [sub], and no key of the loaded state
    starts with the prefix, the state is set on [sub] only, the paths of
    the full model that do not start with the prefix are reported as
    missing (all of them, in order), and every entry of the model's state
    outside the nested base model, the missing ones among them, keeps the
    value the constructor gave it. *)
Theorem base_checkpoint_into_head (sub : model) :
  PaddleLayer.getattr m prefix = Some (PaddleLayer.AttrLayer sub) ->
  any_startswith prefix sd = false ->
  let m' :=
    PaddleLayer.with_sub prefix (PaddleLayer.set_state_dict sd sub) m in
  let missing :=
    filter (fun k => negb (PyStr.startswith k prefix))
           (keys (PaddleLayer.state_dict m)) in
  from_pretrained w cls name args kwargs
  = ((tr ++ tr'
         ++ match missing with
            | [] => []
            | _ => [InfoMissing (l_class m) missing]
            end)%list,
     Ok (returned w (m', sd)))
  /\ get prefix (l_subs m') = Some (PaddleLayer.set_state_dict sd sub)
  /\ filter (PaddleLayer.outside prefix) (PaddleLayer.state_dict m')
     = filter (PaddleLayer.outside prefix) (PaddleLayer.state_dict m)
  /\ forall k, In k missing ->
               get k (PaddleLayer.state_dict m')
               = get k (PaddleLayer.state_dict m).
Proof.
  intros HG HA m' missing.
  pose proof (LayerFacts.getattr_layer _ _ _ HG) as HS.
  assert (HO : filter (PaddleLayer.outside prefix) (PaddleLayer.state_dict m')
               = filter (PaddleLayer.outside prefix) (PaddleLayer.state_dict m))
    by exact (LayerFacts.with_sub_outside _ _ _ _ HS).
  split; [|split; [|split; [exact HO|]]].
  - rewrite from_pretrained_read.
    rewrite (reconcile_into_base cls m sub sd HG HA).
    unfold missing_of. fold missing. fold m'.
    rewrite bind_Ok. cbn [fst snd bind ret]. rewrite app_nil_r.
    destruct missing; cbn [fst snd]; now rewrite <- app_assoc.
  - unfold m'. destruct m as [c cfg params subs oth]. simpl.
    apply DictFacts.get_set_same.
  - intros k Hk. apply filter_In in Hk as [_ Hk].
    set (P := fun k => negb (PyStr.startswith k (prefix ++ "."))).
    assert (HP : P k = true).
    { unfold P. destruct (PyStr.startswith k (prefix ++ ".")) eqn:E;
        [|reflexivity].
      apply PyStrFacts.startswith_longer in E. now rewrite E in Hk. }
    rewrite <- (LayerFacts.get_filter P k (PaddleLayer.state_dict m') HP).
    rewrite <- (LayerFacts.get_filter P k (PaddleLayer.state_dict m) HP).
    change (fun kv : string * tensor => P (fst kv))
      with (PaddleLayer.outside prefix).
    now rewrite HO.
Qed.

(** What the code does when the constructed model has no attribute
    [base_model_prefix] and the keys of the saved state all start with the
    prefix (or at least one does): the state that is set on the model is
    the saved one with [len(prefix + ".")] characters cut off every key
    that starts with the prefix, which for a key [prefix + "." + rest]
    leaves [rest]; the keys that do not start with the prefix are reported
    as unexpected (all of them, in order), and the call returns. *)
Lemma prefixed_checkpoint_into_base :
  PaddleLayer.hasattr m prefix = false ->
  forallb (fun s => PyStr.startswith s prefix) (keys sd) = true
  \/ any_startswith prefix sd = true ->
  let state_to_load := fst (strip_prefix prefix sd) in
  let unexpected := snd (strip_prefix prefix sd) in
  let cut := PyStr.drop (String.length (prefix ++ ".")) in
  from_pretrained w cls name args kwargs
  = ((tr ++ tr'
         ++ match unexpected with
            | [] => []
            | _ => [InfoUnexpected (l_class m) unexpected]
            end)%list,
     Ok (returned w (PaddleLayer.set_state_dict state_to_load m,
                     state_to_load)))
  /\ unexpected = filter (fun k => negb (PyStr.startswith k prefix)) (keys sd)
  /\ (forall k,
         get k state_to_load
         = get k (rev (map (fun kv => (cut (fst kv), snd kv))
                           (filter (fun kv => PyStr.startswith (fst kv) prefix)
                                   sd))))
  /\ (forall rest, cut (prefix ++ "." ++ rest) = rest)
  /\ (forall rest v, In (prefix ++ "." ++ rest, v) sd ->
                     get rest state_to_load <> None).
Proof.
  intros HH HA state_to_load unexpected cut.
  assert (HA' : sd = [] \/ any_startswith prefix sd = true).
  { destruct HA as [HA|HA]; [now apply all_then_any | now right]. }
  destruct (strip_prefix_spec prefix sd) as [HU HG].
  split; [|split; [exact HU|split; [exact HG|split]]].
  - rewrite from_pretrained_read.
    rewrite (reconcile_stripped cls m sd HH HA').
    fold state_to_load. fold unexpected.
    rewrite bind_Ok. cbn [fst snd bind ret]. rewrite app_nil_r.
    destruct unexpected; cbn [fst snd]; now rewrite <- app_assoc.
  - intros rest. apply PyStrFacts.drop_start_prefix.
  - intros rest v HI. fold state_to_load in HG. rewrite HG.
    intros HN. apply DictFacts.get_None in HN. apply HN.
    unfold keys. rewrite map_rev, <- in_rev, map_map. cbn [fst].
    apply in_map_iff. exists (prefix ++ "." ++ rest, v). split.
    + apply PyStrFacts.drop_start_prefix.
    + apply filter_In. split; [exact HI|]. cbn [fst].
      apply PyStrFacts.startswith_app.
Qed.

End Loaded.

Lemma drop_any_separator (prefix rest : string) (c : ascii) :
  PyStr.drop (String.length (prefix ++ ".")) (prefix ++ String c rest) = rest.
Proof. induction prefix as [|x prefix IH]; simpl; [reflexivity | exact IH]. Qed.

(** C2. The claim fails on the code for a key that starts with the prefix
    without the dot after it. Lines 262-263 test [k.startswith(prefix)] and
    cut [len(prefix + ".")] characters: for a model without the prefix
    attribute, a key [prefix + c + rest] of the saved state is loaded as
    [rest] whatever the character [c] is, and it is not among the keys
    reported as unexpected. So such a key is neither stripped of the prefix
    and the dot nor reported. *)
Theorem prefix_cut_ignores_separator
        (w : world) (cls : pyclass) (name : string)
        (args : list pyval) (kwargs : config)
        (tr tr' : list event) (sp : split) (base : ctor)
        (resolved others : dict string) (file_id weight_path : string)
        (m : model) (sd : dict tensor)
        (c : ascii) (rest : string) (v : tensor) :
  configure w cls name = (tr, Ok (sp, base, resolved)) ->
  build_model cls base sp args kwargs = (tr', Ok m) ->
  resolved = (file_id, weight_path) :: others ->
  PyStr.endswith weight_path weight_suffix = true ->
  paddle_load w weight_path = Ok sd ->
  PaddleLayer.hasattr m (base_model_prefix cls) = false ->
  In (base_model_prefix cls ++ String c rest, v) sd ->
  let state_to_load := fst (strip_prefix (base_model_prefix cls) sd) in
  let unexpected := snd (strip_prefix (base_model_prefix cls) sd) in
  from_pretrained w cls name args kwargs
  = ((tr ++ tr'
         ++ match unexpected with
            | [] => []
            | _ => [InfoUnexpected (l_class m) unexpected]
            end)%list,
     Ok (returned w (PaddleLayer.set_state_dict state_to_load m,
                     state_to_load)))
  /\ get rest state_to_load <> None
  /\ ~ In (base_model_prefix cls ++ String c rest) unexpected.
Proof.
  intros HC HB HR HS HL HH HI state_to_load unexpected.
  assert (HK : PyStr.startswith (base_model_prefix cls ++ String c rest)
                                (base_model_prefix cls) = true)
    by apply PyStrFacts.startswith_app.
  assert (HA : any_startswith (base_model_prefix cls) sd = true).
  { unfold any_startswith. apply existsb_exists.
    exists (base_model_prefix cls ++ String c rest). split; [|exact HK].
    unfold keys. apply in_map_iff. now exists (base_model_prefix cls ++ String c rest, v). }
  destruct (prefixed_checkpoint_into_base
              w cls name args kwargs tr tr' sp base resolved others
              file_id weight_path m sd HC HB HR HS HL HH (or_intror HA))
    as (H1 & H2 & H3 & _).
  split; [exact H1|]. split.
  - fold state_to_load in H3. rewrite H3. intros HN.
    apply DictFacts.get_None in HN. apply HN.
    unfold keys. rewrite map_rev, <- in_rev, map_map. cbn [fst].
    apply in_map_iff. exists (base_model_prefix cls ++ String c rest, v).
    split; [apply drop_any_separator|].
    apply filter_In. split; [exact HI | exact HK].
  - fold unexpected in H2. rewrite H2. intros I.
    apply filter_In in I as [_ I]. now rewrite HK in I.
Qed.

Lemma prefix_cut_ignores_separator_witness :
  from_pretrained
    (Tiny.world_of true PNone "/home/tiny-model/tiny.pdparams"
                   TinyMore.undotted_state)
    (Tiny.class_of Tiny.TinyModel) "tiny-model" [] []
  = ([InfoAlreadyCached "/home/tiny-model/tiny.pdparams";
      Construct "TinyModel" [] [("hidden_size", PInt 8)]],
     Ok (ModelOnly
           (PaddleLayer.set_state_dict
              [("weight", 3%Z); ("head.weight", 5%Z)] Tiny.encoder))).
Proof.
  exact (proj1 (prefix_cut_ignores_separator
                  (Tiny.world_of true PNone "/home/tiny-model/tiny.pdparams"
                                 TinyMore.undotted_state)
                  (Tiny.class_of Tiny.TinyModel) "tiny-model" [] []
                  _ _ _ _ _ [] "model_state"
                  "/home/tiny-model/tiny.pdparams" Tiny.encoder
                  TinyMore.undotted_state "_"%char "head.weight" 5%Z
                  eq_refl eq_refl eq_refl eq_refl eq_refl eq_refl
                  (or_intror (or_introl eq_refl)))).
Defined.

Lemma base_checkpoint_into_head_witness :
  exists tr m',
    from_pretrained
      (Tiny.world_of true PNone "/home/tiny-model/tiny.pdparams"
                     Tiny.base_state)
      (Tiny.class_of Tiny.TinyForCls) "tiny-model" [] []
    = (tr, Ok (ModelOnly m'))
    /\ In (InfoMissing "TinyForCls" ["classifier.weight"; "classifier.bias"]) tr
    /\ get "tiny" (l_subs m')
       = Some (PaddleLayer.set_state_dict Tiny.base_state
                 (mkLayer "TinyModel"
                    [("hidden_size", PInt 8); ("init_class", PStr "TinyModel")]
                    [("weight", 0%Z); ("bias", 0%Z)] [] [])).
Proof.
  edestruct (base_checkpoint_into_head
               (Tiny.world_of true PNone "/home/tiny-model/tiny.pdparams"
                              Tiny.base_state)
               (Tiny.class_of Tiny.TinyForCls) "tiny-model" [] [])
    as (H1 & H2 & _).
  - reflexivity.
  - reflexivity.
  - reflexivity.
  - reflexivity.
  - reflexivity.
  - reflexivity.
  - reflexivity.
  - eexists _, _. split; [exact H1|]. split; [|exact H2].
    simpl. tauto.
Defined.

Lemma prefixed_checkpoint_into_base_witness :
  exists tr,
    from_pretrained
      (Tiny.world_of true PNone "/home/tiny-model/tiny.pdparams"
                     Tiny.head_state)
      (Tiny.class_of Tiny.TinyModel) "tiny-model" [] []
    = (tr,
       Ok (ModelOnly
             (mkLayer "TinyModel"
                [("hidden_size", PInt 8); ("init_class", PStr "TinyModel")]
                [("weight", 3%Z); ("bias", 4%Z)] [] [])))
    /\ In (InfoUnexpected "TinyModel" ["classifier.weight"]) tr.
Proof.
  edestruct (prefixed_checkpoint_into_base
               (Tiny.world_of true PNone "/home/tiny-model/tiny.pdparams"
                              Tiny.head_state)
               (Tiny.class_of Tiny.TinyModel) "tiny-model" [] [])
    as (H1 & _).
  - reflexivity.
  - reflexivity.
  - reflexivity.
  - reflexivity.
  - reflexivity.
  - reflexivity.
  - right. reflexivity.
  - eexists. split; [exact H1|]. simpl. tauto.
Defined.

Lemma weights_from_first_resource_witness :
  exists tr m,
    from_pretrained
      (Tiny.world_of true PNone "/home/tiny-model/tiny.pdparams"
                     Tiny.base_state)
      (Tiny.class_of Tiny.TinyModel) "tiny-model" [] []
    = bind (tr, Ok Tiny.base_state)
           (fun state_dict =>
              r <- reconcile (Tiny.class_of Tiny.TinyModel) m state_dict ;;
              ret (returned (Tiny.world_of true PNone
                                           "/home/tiny-model/tiny.pdparams"
                                           Tiny.base_state) r)).
Proof.
  edestruct (weights_from_first_resource
               (Tiny.world_of true PNone "/home/tiny-model/tiny.pdparams"
                              Tiny.base_state)
               (Tiny.class_of Tiny.TinyModel) "tiny-model" [] [])
    as [_ H].
  - reflexivity.
  - reflexivity.
  - reflexivity.
  - eexists _, _. apply H. exists "/home/tiny-model/tiny". reflexivity.
Defined.

(** A resource whose name has another suffix stops the call. *)
Example wrong_suffix_raises :
  from_pretrained
    (Tiny.world_of true
                   (PDict [("hidden_size", PInt 8);
                           ("init_class", PStr "TinyModel")])
                   "saved/model_state.bin" Tiny.base_state)
    (Tiny.class_with Tiny.TinyModel "model_state.bin") "saved" [] []
  = ([Construct "TinyModel" [] [("hidden_size", PInt 8)]],
     Raise (AssertionError "suffix of weight must be .pdparams")).
Proof. reflexivity. Qed.

(** ** Building the model *)

Lemma bind_ext {A B} (m : M A) (f g : A -> M B) :
  (forall a, f a = g a) -> bind m f = bind m g.
Proof.
  intros E. destruct m as [t [a|e]]; simpl; [now rewrite E | reflexivity].
Qed.

Lemma from_pretrained_configured
      (w : world) (cls : pyclass) (name : string)
      (args : list pyval) (kwargs : config)
      (tr : list event) (sp : split) (base : ctor) (resolved : dict string) :
  configure w cls name = (tr, Ok (sp, base, resolved)) ->
  from_pretrained w cls name args kwargs
  = bind (tr, Ok tt)
         (fun _ => m <- build_model cls base sp args kwargs ;;
                   r <- load_weights w cls m resolved ;;
                   ret (returned w r)).
Proof.
  intros HC. unfold from_pretrained, load_pretrained.
  rewrite HC, bind_assoc, !bind_Ok. cbv beta iota.
  now rewrite bind_assoc.
Qed.

(** C5. When the target class is its own registered base-model class, the
    one constructor call of [from_pretrained] is made on that class: with
    the explicit positional arguments when there are any, none of the loaded
    [init_args] being kept, and with the loaded ones otherwise; with the
    loaded keyword configuration updated by the explicit keyword arguments,
    an explicit value winning for its key. The instance so constructed, with
    its weights set, is the model that is returned. *)
Theorem base_class_overrides
        (w : world) (cls : pyclass) (name : string)
        (args : list pyval) (kwargs : config)
        (tr : list event) (sp : split) (base : ctor)
        (resolved : dict string) :
  configure w cls name = (tr, Ok (sp, base, resolved)) ->
  c_name (c_self cls) = c_name base ->
  NoDup (keys kwargs) ->
  let merged := update (base_kwargs sp) kwargs in
  let rest_of_call (bargs : list pyval) : M loaded :=
    m <- construct (c_self cls) bargs merged ;;
    r <- load_weights w cls m resolved ;;
    ret (returned w r) in
  (args <> [] ->
   from_pretrained w cls name args kwargs
   = bind (tr, Ok tt) (fun _ => rest_of_call args))
  /\ (args = [] ->
      from_pretrained w cls name args kwargs
      = bind (tr, Ok tt)
             (fun _ => bargs <- lift (py_iter (base_args sp)) ;;
                       rest_of_call bargs))
  /\ (forall k,
         get k merged
         = match get k kwargs with
           | Some v => Some v
           | None => get k (base_kwargs sp)
           end)
  /\ (forall tr2 r,
         from_pretrained w cls name args kwargs = (tr2, Ok r) ->
         exists bargs m st,
           c_call (c_self cls) bargs merged = Ok m
           /\ (args <> [] -> bargs = args)
           /\ (loaded_model r = PaddleLayer.set_state_dict st m
               \/ exists sub,
                   PaddleLayer.getattr m (base_model_prefix cls)
                   = Some (PaddleLayer.AttrLayer sub)
                   /\ loaded_model r
                      = PaddleLayer.with_sub
                          (base_model_prefix cls)
                          (PaddleLayer.set_state_dict st sub) m)).
Proof.
  intros HC HN ND merged rest_of_call.
  assert (E : from_pretrained w cls name args kwargs
              = bind (tr, Ok tt)
                     (fun _ =>
                        bargs <- match args with
                                 | [] => lift (py_iter (base_args sp))
                                 | _ => ret args
                                 end ;;
                        rest_of_call bargs)).
  { rewrite (from_pretrained_configured _ _ _ _ _ _ _ _ _ HC).
    unfold build_model. rewrite HN, String.eqb_refl. fold merged.
    apply bind_ext. intros _. now rewrite bind_assoc. }
  split; [|split; [|split]].
  - intros HA. rewrite E. destruct args; [now elim HA|].
    now rewrite bind_ret_l.
  - intros ->. exact E.
  - intros k. now apply DictFacts.get_update.
  - intros tr2 r H. rewrite E in H.
    apply bind_Ok_inv in H as (t1 & [] & t2 & _ & H & _).
    apply bind_Ok_inv in H as (t3 & bargs & t4 & HB & H & _).
    unfold rest_of_call, construct in H.
    apply bind_Ok_inv in H as (t5 & m & t6 & HM & H & _).
    apply bind_Ok_inv in HM as (t7 & [] & t8 & _ & HM & _).
    apply bind_Ok_inv in H as (t9 & [m' st] & t10 & HL & H & _).
    injection H as _ <-. injection HM as _ HM.
    exists bargs, m, st. split; [exact HM|]. split.
    + intros HA. destruct args; [now elim HA|]. now injection HB as _ <-.
    + unfold load_weights in HL.
      apply bind_Ok_inv in HL as (t11 & sd & t12 & _ & HL & _).
      unfold returned. destruct (in_dynamic_mode w); simpl;
        exact (reconcile_sets _ _ _ _ _ _ HL).
Qed.

Lemma base_class_overrides_witness :
  exists tr sp resolved,
    from_pretrained
      (Tiny.world_of false PNone "/home/tiny-model/tiny.pdparams"
                     Tiny.base_state)
      (Tiny.class_of Tiny.TinyModel) "tiny-model" [] [("hidden_size", PInt 9)]
    = bind (tr, Ok tt)
           (fun _ =>
              bargs <- lift (py_iter (base_args sp)) ;;
              m <- construct Tiny.TinyModel bargs
                             (update (base_kwargs sp)
                                     [("hidden_size", PInt 9)]) ;;
              r <- load_weights
                     (Tiny.world_of false PNone
                                    "/home/tiny-model/tiny.pdparams"
                                    Tiny.base_state)
                     (Tiny.class_of Tiny.TinyModel) m resolved ;;
              ret (returned (Tiny.world_of false PNone
                                           "/home/tiny-model/tiny.pdparams"
                                           Tiny.base_state) r)).
Proof.
  edestruct (base_class_overrides
               (Tiny.world_of false PNone "/home/tiny-model/tiny.pdparams"
                              Tiny.base_state)
               (Tiny.class_of Tiny.TinyModel) "tiny-model" []
               [("hidden_size", PInt 9)])
    as (_ & H & _).
  - reflexivity.
  - reflexivity.
  - simpl. constructor; [simpl; tauto | constructor].
  - eexists _, _, _. apply H. reflexivity.
Defined.

(** ** Finding the nested base-model marker *)

Lemma get_remove_other {V} (k k' : string) (d : dict V) :
  k <> k' -> get k (remove k' d) = get k d.
Proof.
  intros n. induction d as [|[k0 v0] d IH]; simpl; [reflexivity|].
  destruct (String.eqb_spec k0 k') as [->|n0]; simpl.
  - destruct (String.eqb_spec k' k); [now elim n | reflexivity].
  - destruct (k0 =? k); [reflexivity | exact IH].
Qed.

Lemma is_marker_Some (arg : pyval) (d : config) :
  is_marker arg = Some d -> contains "init_class" d = true.
Proof.
  destruct arg; simpl; try discriminate.
  destruct (contains "init_class" d0) eqn:E; [|discriminate].
  now intros [= <-].
Qed.

Lemma pop_marker_spec (base : ctor) (d : config) :
  contains "init_class" d = true ->
  pop_marker (c_name base) d
  = if marker_ok base d then ret (remove "init_class" d)
    else raise (wrong_base base).
Proof.
  unfold pop_marker, pop, contains, marker_ok.
  destruct (get "init_class" d); [reflexivity | discriminate].
Qed.

(** The first loop stops at the first positional marker. *)
Lemma search_args_spec (base : ctor) (i : nat) (l : list pyval) :
  search_args (c_name base) i l
  = match first_positional_marker i l with
    | None => ret None
    | Some (j, d) =>
        if marker_ok base d then ret (Some (j, remove "init_class" d))
        else raise (wrong_base base)
    end.
Proof.
  revert i. induction l as [|arg l IH]; intros i; simpl; [reflexivity|].
  destruct (is_marker arg) as [d|] eqn:E; [|apply IH].
  rewrite (pop_marker_spec base d (is_marker_Some _ _ E)).
  now destruct (marker_ok base d).
Qed.

(** The second loop stops at the first keyword marker. *)
Lemma search_kwargs_spec (base : ctor) (items : config) :
  search_kwargs (c_name base) items
  = match first_keyword_marker items with
    | None => ret None
    | Some (n, d) =>
        if marker_ok base d then ret (Some (n, remove "init_class" d))
        else raise (wrong_base base)
    end.
Proof.
  induction items as [|[n arg] items IH]; simpl; [reflexivity|].
  destruct (is_marker arg) as [d|] eqn:E; [|apply IH].
  rewrite (pop_marker_spec base d (is_marker_Some _ _ E)).
  now destruct (marker_ok base d).
Qed.

(** The claim as worded fails where both a positional and a keyword
    argument are markers: with [hidden_size] 8 in the positional marker and
    16 in the keyword one, the configuration taken is the keyword one. *)
Lemma positional_marker_wins_fails :
  (first_positional_marker
     0 [PDict [("hidden_size", PInt 8); ("init_class", PStr "TinyModel")]]
   = Some (0, [("hidden_size", PInt 8); ("init_class", PStr "TinyModel")])
   /\ exists sp,
       split_config Tiny.TinyModel Tiny.both_config = ([], Ok sp)
       /\ base_arg_index sp = Some (AtKeyword "tiny")
       /\ base_kwargs sp = [("hidden_size", PInt 16)])
  /\ ~ positional_marker_wins.
Proof.
  split.
  - split; [reflexivity|]. eexists. repeat split.
  - intros H.
    destruct (H Tiny.TinyModel Tiny.both_config _ 0
                [("hidden_size", PInt 8); ("init_class", PStr "TinyModel")]
                _ _ eq_refl eq_refl eq_refl eq_refl) as [HI _].
    discriminate HI.
Qed.

(** C3, as amended. In a configuration saved for a derived class, both
    searches run, the positional arguments first and the keyword arguments
    after: when a keyword argument is a marker, the first such one, in
    insertion order, is taken as the base model's init configuration,
    whatever the positional search found; when none is, the first
    positional marker is taken; with no marker at all the call raises. *)
Theorem keyword_marker_wins
        (base : ctor) (init_kwargs : config) (l : list pyval) :
  let init_class :=
    match get "init_class" init_kwargs with
    | Some v => v
    | None => PStr (c_name base)
    end in
  let kw := remove "init_class" (remove "init_args" init_kwargs) in
  py_eq_str init_class (c_name base) = false ->
  py_iter (init_args_of init_kwargs) = Ok l ->
  (forall i d, first_positional_marker 0 l = Some (i, d) ->
               marker_ok base d = true) ->
  (forall n d, first_keyword_marker kw = Some (n, d) ->
               marker_ok base d = true) ->
  match first_keyword_marker kw, first_positional_marker 0 l with
  | Some (n, d), _ =>
      exists sp,
        split_config base init_kwargs = ([], Ok sp)
        /\ base_arg_index sp = Some (AtKeyword n) /\ taken_from d sp
  | None, Some (i, d) =>
      exists sp,
        split_config base init_kwargs = ([], Ok sp)
        /\ base_arg_index sp = Some (AtPosition i) /\ taken_from d sp
  | None, None => split_config base init_kwargs = ([], Raise AttributeError)
  end.
Proof.
  intros init_class kw HD HL HP HK.
  unfold split_config, pop. cbv beta iota zeta.
  rewrite (get_remove_other "init_class" "init_args") by discriminate.
  fold init_class. rewrite HD. fold (init_args_of init_kwargs). rewrite HL.
  unfold lift. fold (@ret (list pyval) l). rewrite bind_ret_l.
  rewrite search_args_spec. fold kw.
  destruct (first_positional_marker 0 l) as [[i d]|] eqn:EP.
  - rewrite (HP i d eq_refl), bind_ret_l. cbn [option_map fst snd seen_at].
    rewrite search_kwargs_spec.
    destruct (first_keyword_marker kw) as [[n d']|] eqn:EK.
    + rewrite (HK n d' eq_refl), bind_ret_l. cbn [fst snd seen_at].
      eexists. split; [reflexivity|]. split; [reflexivity|].
      split; reflexivity.
    + rewrite bind_ret_l. cbn [fst snd seen_at].
      eexists. split; [reflexivity|]. split; [reflexivity|].
      split; reflexivity.
  - rewrite bind_ret_l. cbn [option_map fst snd seen_at].
    rewrite search_kwargs_spec.
    destruct (first_keyword_marker kw) as [[n d']|] eqn:EK.
    + rewrite (HK n d' eq_refl), bind_ret_l. cbn [fst snd seen_at].
      eexists. split; [reflexivity|]. split; [reflexivity|].
      split; reflexivity.
    + rewrite bind_ret_l. reflexivity.
Qed.

Lemma keyword_marker_wins_witness :
  exists sp,
    split_config Tiny.TinyModel Tiny.both_config = ([], Ok sp)
    /\ base_arg_index sp = Some (AtKeyword "tiny")
    /\ taken_from [("hidden_size", PInt 16); ("init_class", PStr "TinyModel")]
                  sp.
Proof.
  refine (keyword_marker_wins
            Tiny.TinyModel Tiny.both_config
            [PDict [("hidden_size", PInt 8); ("init_class", PStr "TinyModel")]]
            eq_refl eq_refl _ _).
  - intros i d [= <- <-]. reflexivity.
  - intros n d [= <- <-]. reflexivity.
Defined.

(** With markers among the positional arguments only, the first of them is
    taken. *)
Example positional_marker_taken :
  exists sp,
    split_config Tiny.TinyModel
                 [("init_args",
                   PSeq [PInt 1;
                         PDict [("hidden_size", PInt 8);
                                ("init_class", PStr "TinyModel")];
                         PDict [("hidden_size", PInt 16);
                                ("init_class", PStr "TinyModel")]]);
                  ("init_class", PStr "TinyForCls")]
    = ([], Ok sp)
    /\ base_arg_index sp = Some (AtPosition 1)
    /\ base_kwargs sp = [("hidden_size", PInt 8)].
Proof. eexists. repeat split. Qed.

(** ** Placing the base model *)

(** With the marker found under a keyword, line 233 indexes the list
    [derived_args] with a string: the derived class is never constructed. *)
Lemma keyword_position_raises
      (cls : pyclass) (base : ctor) (sp : split)
      (args : list pyval) (kwargs : config) (arg_name : string) :
  c_name (c_self cls) <> c_name base ->
  base_arg_index sp = Some (AtKeyword arg_name) ->
  (exists e, snd (build_model cls base sp args kwargs) = Raise e)
  /\ (forall bargs base_model,
         py_iter (base_args sp) = Ok bargs ->
         c_call base bargs
                (override_known (c_parameters base) kwargs (base_kwargs sp))
         = Ok base_model ->
         build_model cls base sp args kwargs
         = ([Construct (c_name base) bargs
                       (override_known (c_parameters base) kwargs
                                       (base_kwargs sp))],
            Raise TypeError)).
Proof.
  intros HN HI. apply String.eqb_neq in HN.
  unfold build_model. rewrite HN, HI. split.
  - destruct (py_iter (base_args sp)) as [bargs|e]; simpl; [|eauto].
    destruct (c_call base bargs _) as [bm|e]; simpl; eauto.
  - intros bargs bm -> HB. simpl. rewrite HB. reflexivity.
Qed.

(** C4. The base model is not put at a position that is a keyword-argument
    name: for a derived class whose configuration holds the marker under a
    keyword, once the base model is constructed the assignment of line 233
    raises [TypeError], and the derived class is not constructed. *)
Theorem keyword_marker_not_substituted
        (w : world) (cls : pyclass) (name : string)
        (args : list pyval) (kwargs : config)
        (tr : list event) (sp : split) (base : ctor)
        (resolved : dict string) (arg_name : string)
        (bargs : list pyval) (base_model : model) :
  configure w cls name = (tr, Ok (sp, base, resolved)) ->
  c_name (c_self cls) <> c_name base ->
  base_arg_index sp = Some (AtKeyword arg_name) ->
  py_iter (base_args sp) = Ok bargs ->
  c_call base bargs
         (override_known (c_parameters base) kwargs (base_kwargs sp))
  = Ok base_model ->
  from_pretrained w cls name args kwargs
  = ((tr ++ [Construct (c_name base) bargs
                       (override_known (c_parameters base) kwargs
                                       (base_kwargs sp))])%list,
     Raise TypeError).
Proof.
  intros HC HN HI HB HM.
  rewrite (from_pretrained_configured _ _ _ _ _ _ _ _ _ HC).
  destruct (keyword_position_raises cls base sp args kwargs arg_name HN HI)
    as [_ H].
  rewrite (H bargs base_model HB HM). reflexivity.
Qed.

(** A head saved after being built with its encoder as the keyword argument
    [tiny] cannot be loaded back. *)
Lemma keyword_marker_not_substituted_witness :
  from_pretrained
    (Tiny.world_of true Tiny.keyword_doc "saved/model_state.pdparams"
                   Tiny.head_state)
    (Tiny.class_of Tiny.TinyForCls) "saved" [] []
  = ([Construct "TinyModel" [] [("hidden_size", PInt 8)]], Raise TypeError).
Proof.
  refine (keyword_marker_not_substituted
            (Tiny.world_of true Tiny.keyword_doc "saved/model_state.pdparams"
                           Tiny.head_state)
            (Tiny.class_of Tiny.TinyForCls) "saved" [] []
            [] _ Tiny.TinyModel _ "tiny" [] Tiny.encoder
            eq_refl _ eq_refl eq_refl eq_refl).
  discriminate.
Defined.

(** The same head saved with its encoder as a positional argument loads:
    the encoder is put back at the index of the marker. *)
Example positional_marker_substituted :
  fst (from_pretrained
         (Tiny.world_of true Tiny.positional_doc "saved/model_state.pdparams"
                        Tiny.head_state)
         (Tiny.class_of Tiny.TinyForCls) "saved" [] [])
  = [Construct "TinyModel" [] [("hidden_size", PInt 8)];
     Construct "TinyForCls" [PModel Tiny.encoder] [("num_labels", PInt 2)]].
Proof. reflexivity. Qed.

(** A configuration of the base class gives no place: the encoder is the
    only positional argument of the head. *)
Example base_model_sole_argument :
  fst (from_pretrained
         (Tiny.world_of true PNone "/home/tiny-model/tiny.pdparams"
                        Tiny.head_state)
         (Tiny.class_of Tiny.TinyForCls) "tiny-model" [] [])
  = [InfoAlreadyCached "/home/tiny-model/tiny.pdparams";
     Construct "TinyModel" [] [("hidden_size", PInt 8)];
     Construct "TinyForCls" [PModel Tiny.encoder] []].
Proof. reflexivity. Qed.

(** The configuration that cannot be loaded is the one [save_model_config]
    writes for a head built with its encoder as a keyword argument. *)
Example keyword_doc_is_saved :
  let '(_, d, r) :=
    save_model_config Tiny.classes (Tiny.class_of Tiny.TinyForCls)
                      Tiny.head_by_keyword
                      "saved" (mkDisk (fun _ => true) []) in
  r = Ok tt /\ json_read d "saved/model_config.json" = Ok Tiny.keyword_doc.
Proof. split; reflexivity. Qed.

(** ** Saving the configuration *)

(** The loop of [save_model_config] computes the substituted
    configuration. *)
Lemma rewrite_config_spec (classes : class_table) (done todo : config) :
  init_args_is_seq todo ->
  rewrite_config classes done todo
  = ((done ++ substituted_config classes todo)%list, Ok tt).
Proof.
  revert done. induction todo as [|[k v] todo IH]; intros done HS; simpl.
  - now rewrite app_nil_r.
  - assert (HS' : init_args_is_seq todo).
    { intros v' I. apply (HS v'). now right. }
    unfold saved_value.
    destruct (String.eqb_spec k "init_args") as [->|n].
    + destruct (HS v (or_introl eq_refl)) as [args ->]. simpl.
      rewrite (IH _ HS'). now rewrite <- app_assoc.
    + rewrite (IH _ HS'). now rewrite <- app_assoc.
Qed.

Lemma forallb_false_In {A} (f : A -> bool) (l : list A) (x : A) :
  In x l -> f x = false -> forallb f l = false.
Proof.
  intros I H. destruct (forallb f l) eqn:E; [|reflexivity].
  rewrite forallb_forall in E. now rewrite (E x I) in H.
Qed.

(** A nested instance whose own init configuration cannot be written makes
    the substituted configuration one that cannot be written. *)
Lemma substituted_not_serializable
      (classes : class_table) (c : config) (args : list pyval)
      (inner : model) :
  In ("init_args", PSeq args) c ->
  In (PModel inner) args ->
  isinstance_pretrained classes inner = true ->
  serializable (PDict (l_init_config inner)) = false ->
  serializable (PDict (substituted_config classes c)) = false.
Proof.
  intros HI HA HP HS. cbn [serializable].
  apply forallb_false_In
    with (x := ("init_args", PSeq (map (own_config classes) args))).
  - unfold substituted_config. apply in_map_iff.
    now exists ("init_args", PSeq args).
  - cbn [serializable].
    apply forallb_false_In with (x := PDict (l_init_config inner)); [|exact HS].
    apply in_map_iff. exists (PModel inner). split; [|exact HA].
    unfold own_config. now rewrite HP.
Qed.

(** C8. [save_model_config] does not write a JSON object for every model
    instance: the loop of lines 296-305 puts the init configuration of a
    nested instance in its place as it is, so for an instance among whose
    positional arguments is a pretrained-model instance whose own init
    configuration cannot be written (it holds a model instance in turn),
    the instance keeps the configuration rewritten one level deep, the
    file is opened, [json.dumps] raises [TypeError], and the file is left
    empty. *)
Theorem nested_instance_not_saved
        (classes : class_table) (cls : pyclass) (self : model)
        (save_dir : string) (d : disk) (args : list pyval) (inner : model) :
  let path := PyStr.path_join save_dir (model_config_file cls) in
  can_open d path = true ->
  init_args_is_seq (l_init_config self) ->
  In ("init_args", PSeq args) (l_init_config self) ->
  In (PModel inner) args ->
  isinstance_pretrained classes inner = true ->
  serializable (PDict (l_init_config inner)) = false ->
  save_model_config classes cls self save_dir d
  = (with_init_config (substituted_config classes (l_init_config self)) self,
     mkDisk (can_open d) (set path Blank (files d)),
     Raise TypeError).
Proof.
  intros path HO HQ HI HA HP HS.
  unfold save_model_config. fold path.
  rewrite (rewrite_config_spec classes [] _ HQ). cbn [app].
  rewrite HO. unfold json_dumps.
  now rewrite (substituted_not_serializable classes _ args inner HI HA HP HS).
Qed.

(** A model built around a head built around an encoder. *)
Lemma nested_instance_not_saved_witness :
  save_model_config Tiny.classes (Tiny.class_of Tiny.TinyForCls)
                    Tiny.pair_model "out" Tiny.out_disk
  = (with_init_config
       [("init_args", PSeq [PDict (l_init_config Tiny.head)]);
        ("init_class", PStr "TinyPair")]
       Tiny.pair_model,
     mkDisk (can_open Tiny.out_disk) [("out/model_config.json", Blank)],
     Raise TypeError).
Proof.
  refine (nested_instance_not_saved
            Tiny.classes (Tiny.class_of Tiny.TinyForCls) Tiny.pair_model
            "out" Tiny.out_disk [PModel Tiny.head] Tiny.head
            eq_refl _ _ _ eq_refl eq_refl).
  - intros v [E|[E|[]]]; inversion E. eauto.
  - now left.
  - now left.
Defined.

(** The statement "for every model instance" fails there. *)
Lemma save_always_round_trips_fails :
  snd (save_model_config Tiny.classes (Tiny.class_of Tiny.TinyForCls)
                         Tiny.pair_model "out" Tiny.out_disk)
  = Raise TypeError
  /\ ~ save_always_round_trips.
Proof.
  split; [reflexivity|].
  intros H.
  destruct (H Tiny.classes (Tiny.class_of Tiny.TinyForCls) Tiny.pair_model
              "out" Tiny.out_disk eq_refl) as (self' & d' & HS & _).
  - intros v [E|[E|[]]]; inversion E. eauto.
  - apply (f_equal snd) in HS. vm_compute in HS. discriminate HS.
Qed.

(** Only instances of the pretrained-model base are replaced: a plain layer
    of the runtime among the arguments stays, and [json.dumps] refuses
    it. *)
Example plain_layer_not_replaced :
  own_config Tiny.classes (PModel Tiny.Linear) = PModel Tiny.Linear
  /\ snd (save_model_config Tiny.classes (Tiny.class_of Tiny.TinyForCls)
                            Tiny.head_with_layer "out" Tiny.out_disk)
     = Raise TypeError.
Proof. split; reflexivity. Qed.

(** When the substituted configuration holds no model instance, the save
    goes through: that configuration is written to [model_config_file]
    under the directory and left on the instance, and no other file is
    touched. *)
Lemma save_model_config_writes
      (classes : class_table) (cls : pyclass) (self : model)
      (save_dir : string) (d : disk) :
  let path := PyStr.path_join save_dir (model_config_file cls) in
  let saved := substituted_config classes (l_init_config self) in
  can_open d path = true ->
  init_args_is_seq (l_init_config self) ->
  serializable (PDict saved) = true ->
  exists d',
    save_model_config classes cls self save_dir d
    = (with_init_config saved self, d', Ok tt)
    /\ get path (files d') = Some (Document (PDict saved))
    /\ (forall p, p <> path -> get p (files d') = get p (files d)).
Proof.
  intros path saved HO HS HJ.
  unfold save_model_config. fold path.
  rewrite (rewrite_config_spec classes [] _ HS). cbn [app]. fold saved.
  rewrite HO. unfold json_dumps. rewrite HJ.
  eexists. split; [reflexivity|]. split.
  - cbn [files]. now rewrite DictFacts.get_set_same.
  - intros p n. cbn [files]. apply DictFacts.get_set_other. congruence.
Qed.

(** With no explicit positional arguments, the derived constructor receives
    the base model at the index of a positional marker, and as its only
    positional argument when the configuration gave no place. *)
Lemma derived_constructor_arguments
      (cls : pyclass) (base : ctor) (sp : split) (kwargs : config)
      (bargs : list pyval) (base_model : model) :
  c_name (c_self cls) <> c_name base ->
  py_iter (base_args sp) = Ok bargs ->
  c_call base bargs
         (override_known (c_parameters base) kwargs (base_kwargs sp))
  = Ok base_model ->
  let built :=
    Construct (c_name base) bargs
              (override_known (c_parameters base) kwargs (base_kwargs sp)) in
  let dkwargs :=
    override_known (c_parameters (c_self cls)) kwargs (derived_kwargs sp) in
  (base_arg_index sp = None ->
   build_model cls base sp [] kwargs
   = bind ([built], Ok tt)
          (fun _ => construct (c_self cls) [PModel base_model] dkwargs))
  /\ (forall i dargs,
         base_arg_index sp = Some (AtPosition i) ->
         list_assign i (PModel base_model) (derived_args sp) = Ok dargs ->
         build_model cls base sp [] kwargs
         = bind ([built], Ok tt)
                (fun _ => construct (c_self cls) dargs dkwargs)).
Proof.
  intros HN HB HC built dkwargs. apply String.eqb_neq in HN.
  unfold build_model. rewrite HN, HB. fold dkwargs.
  split.
  - intros ->. unfold lift, construct. simpl. rewrite HC. simpl.
    now destruct (c_call (c_self cls) _ _).
  - intros i dargs -> HA. unfold lift, construct. simpl. rewrite HC. simpl.
    rewrite HA. simpl. now destruct (c_call (c_self cls) _ _).
Qed.

(** * Further properties of the code *)

(** ** States that match the model *)

(** X1. When the model has the attribute [base_model_prefix] and some key of
    the state starts with the prefix, or it has no such attribute and no key
    starts with it, the state is set on the full model as it is, and nothing
    is reported as missing or unexpected. *)
Theorem matching_state_loaded_as_is
        (w : world) (cls : pyclass) (name : string)
        (args : list pyval) (kwargs : config)
        (tr tr' : list event) (sp : split) (base : ctor)
        (resolved others : dict string) (file_id weight_path : string)
        (m : model) (sd : dict tensor) :
  configure w cls name = (tr, Ok (sp, base, resolved)) ->
  build_model cls base sp args kwargs = (tr', Ok m) ->
  resolved = (file_id, weight_path) :: others ->
  PyStr.endswith weight_path weight_suffix = true ->
  paddle_load w weight_path = Ok sd ->
  PaddleLayer.hasattr m (base_model_prefix cls)
  = any_startswith (base_model_prefix cls) sd ->
  from_pretrained w cls name args kwargs
  = ((tr ++ tr')%list,
     Ok (returned w (PaddleLayer.set_state_dict sd m, sd))).
Proof.
  intros HC HB HR HS HL HE.
  rewrite (from_pretrained_read _ _ _ _ _ _ _ _ _ _ _ _ _ _ _
                                HC HB HR HS HL).
  unfold reconcile. rewrite HE.
  destruct (any_startswith (base_model_prefix cls) sd); cbn [negb andb];
    simpl; now rewrite !app_nil_r.
Qed.

Lemma matching_state_loaded_as_is_witness :
  from_pretrained
    (Tiny.world_of true Tiny.positional_doc "saved/model_state.pdparams"
                   Tiny.head_state)
    (Tiny.class_of Tiny.TinyForCls) "saved" [] []
  = ([Construct "TinyModel" [] [("hidden_size", PInt 8)];
      Construct "TinyForCls" [PModel Tiny.encoder] [("num_labels", PInt 2)]],
     Ok (ModelOnly
           (PaddleLayer.set_state_dict Tiny.head_state Tiny.head))).
Proof.
  refine (matching_state_loaded_as_is
            (Tiny.world_of true Tiny.positional_doc
                           "saved/model_state.pdparams" Tiny.head_state)
            (Tiny.class_of Tiny.TinyForCls) "saved" [] []
            [] _ _ Tiny.TinyModel _ [] "model_state"
            "saved/model_state.pdparams" Tiny.head Tiny.head_state
            eq_refl eq_refl eq_refl eq_refl eq_refl eq_refl).
Defined.

(** X2. A class that leaves [base_model_prefix] empty: every key starts with
    the empty prefix, so for a model without an attribute of that name and a
    non-empty state, each key loses its first character ([len("" + ".")])
    before the state is set, and no key is reported as unexpected. *)
Theorem empty_prefix_cuts_keys
        (cls : pyclass) (m : model) (sd : dict tensor) :
  base_model_prefix cls = "" ->
  PaddleLayer.hasattr m "" = false ->
  sd <> [] ->
  exists state_to_load,
    reconcile cls m sd
    = ([], Ok (PaddleLayer.set_state_dict state_to_load m, state_to_load))
    /\ forall k,
        get k state_to_load
        = get k (rev (map (fun kv => (PyStr.drop 1 (fst kv), snd kv)) sd)).
Proof.
  intros HP HH HN.
  assert (HA : any_startswith "" sd = true).
  { destruct sd as [|[k v] sd]; [now elim HN|].
    unfold any_startswith. simpl. now destruct k. }
  assert (HF : filter (fun kv : string * tensor => PyStr.startswith (fst kv) "")
                      sd = sd).
  { clear. induction sd as [|[k v] sd IH]; simpl; [reflexivity|].
    replace (PyStr.startswith k "") with true by now destruct k.
    now rewrite IH. }
  assert (HU : filter (fun k => negb (PyStr.startswith k "")) (keys sd) = []).
  { clear. induction sd as [|[k v] sd IH]; simpl; [reflexivity|].
    replace (PyStr.startswith k "") with true by now destruct k.
    exact IH. }
  destruct (strip_prefix_spec "" sd) as [H1 H2].
  rewrite HU in H1. rewrite HF in H2.
  exists (fst (strip_prefix "" sd)). split; [|exact H2].
  pose proof (reconcile_stripped cls m sd) as HR. rewrite HP in HR.
  rewrite (HR HH (or_intror HA)), H1. reflexivity.
Qed.

Lemma empty_prefix_cuts_keys_witness :
  exists state_to_load,
    reconcile TinyMore.no_prefix_class Tiny.encoder Tiny.base_state
    = ([], Ok (PaddleLayer.set_state_dict state_to_load Tiny.encoder,
               state_to_load))
    /\ get "eight" state_to_load = Some 3%Z
    /\ get "weight" state_to_load = None.
Proof.
  destruct (empty_prefix_cuts_keys TinyMore.no_prefix_class Tiny.encoder
                                   Tiny.base_state eq_refl eq_refl)
    as (stl & H1 & H2).
  - discriminate.
  - exists stl. split; [exact H1|]. rewrite !H2. split; reflexivity.
Defined.

(** ** Keyword overrides *)

Lemma override_known_filter (parameters : list string) (kwargs target : config) :
  override_known parameters kwargs target
  = fold_left (fun acc kv => set (fst kv) (snd kv) acc)
              (filter (fun kv => existsb (String.eqb (fst kv)) parameters)
                      kwargs)
              target.
Proof.
  unfold override_known. revert target.
  induction kwargs as [|[k v] kwargs IH]; intros target; simpl;
    [reflexivity|].
  destruct (existsb (String.eqb k) parameters); simpl; apply IH.
Qed.

Lemma NoDup_keys_filter {V} (P : string * V -> bool) (d : dict V) :
  NoDup (keys d) -> NoDup (keys (filter P d)).
Proof.
  induction d as [|[k v] d IH]; simpl; intros ND; [constructor|].
  inversion ND as [|? ? NI ND']; subst.
  destruct (P (k, v)); simpl; [|now apply IH].
  constructor; [|now apply IH].
  intros I. apply NI. unfold keys in *. apply in_map_iff in I as ([k' v'] & <- & I).
  apply filter_In in I as [I _]. apply in_map_iff. now exists (k', v').
Qed.

Lemma get_filter_keys {V} (P : string -> bool) (k : string) (d : dict V) :
  get k (filter (fun kv => P (fst kv)) d)
  = if P k then get k d else None.
Proof.
  induction d as [|[k' v] d IH]; simpl; [now destruct (P k)|].
  destruct (String.eqb_spec k' k) as [->|n].
  - destruct (P k) eqn:E; simpl; [now rewrite String.eqb_refl | exact IH].
  - destruct (P k'); simpl; [|exact IH].
    destruct (String.eqb_spec k' k); [contradiction | exact IH].
Qed.

Lemma is_parameter_sym (parameters : list string) (k : string) :
  existsb (String.eqb k) parameters = is_parameter parameters k.
Proof. reflexivity. Qed.

(** X3. In the derived branch an explicit keyword argument reaches a
    constructor only if its name is one of that constructor's parameters:
    there its value replaces the loaded one, and the loaded value stays for
    every other key. A keyword that is a parameter of neither constructor is
    dropped without an error. *)
Theorem override_known_routes
        (parameters : list string) (kwargs target : config) (k : string) :
  NoDup (keys kwargs) ->
  get k (override_known parameters kwargs target)
  = if is_parameter parameters k
    then match get k kwargs with
         | Some v => Some v
         | None => get k target
         end
    else get k target.
Proof.
  intros ND. rewrite override_known_filter, DictFacts.get_fold_set.
  rewrite DictFacts.get_rev by now apply NoDup_keys_filter.
  rewrite (get_filter_keys (fun k => existsb (String.eqb k) parameters)).
  unfold is_parameter. now destruct (existsb (String.eqb k) parameters).
Qed.

Lemma override_known_routes_witness :
  get "dropout" (override_known ["self"; "hidden_size"]
                                [("hidden_size", PInt 9); ("dropout", PInt 1)]
                                [("hidden_size", PInt 8)])
  = None
  /\ get "hidden_size" (override_known ["self"; "hidden_size"]
                                       [("hidden_size", PInt 9);
                                        ("dropout", PInt 1)]
                                       [("hidden_size", PInt 8)])
     = Some (PInt 9).
Proof.
  assert (ND : NoDup (keys [("hidden_size", PInt 9); ("dropout", PInt 1)])).
  { simpl. repeat constructor; simpl; intuition discriminate. }
  split.
  - exact (override_known_routes ["self"; "hidden_size"] _
                                 [("hidden_size", PInt 8)] "dropout" ND).
  - exact (override_known_routes ["self"; "hidden_size"] _
                                 [("hidden_size", PInt 8)] "hidden_size" ND).
Defined.

(** ** Failures before construction *)

Lemma quiet_ret {A} (a : A) : quiet (ret a).
Proof. intros ev []. Qed.

Lemma quiet_raise {A} (e : exn) : quiet (@raise A e).
Proof. intros ev []. Qed.

Lemma quiet_lift {A} (o : outcome A) : quiet (lift o).
Proof. intros ev []. Qed.

Lemma quiet_bind {A B} (m : M A) (f : A -> M B) :
  quiet m -> (forall a, quiet (f a)) -> quiet (bind m f).
Proof.
  intros Hm Hf ev. destruct m as [tr [a|e]]; simpl.
  - specialize (Hf a). destruct (f a) as [tr' r]. simpl in *.
    intros I. apply in_app_or in I as [I|I]; [now apply Hm | now apply Hf].
  - apply Hm.
Qed.

Lemma quiet_for_each {A B} (f : B -> A -> M B) (l : list A) (acc : B) :
  (forall b a, quiet (f b a)) -> quiet (for_each f acc l).
Proof.
  intros Hf. revert acc. induction l as [|x l IH]; intros acc; simpl.
  - apply quiet_ret.
  - apply quiet_bind; [apply Hf | intros b; apply IH].
Qed.

Lemma quiet_emit_info (ev : event) :
  is_construct ev = false -> quiet (emit ev).
Proof. intros H ev' [<-|[]]. exact H. Qed.

Lemma quiet_locate (w : world) (cls : pyclass) (name : string) :
  quiet (locate_resources w cls name).
Proof.
  unfold locate_resources.
  destruct (get name (pretrained_init_configuration cls)).
  - apply quiet_bind; [|intros; apply quiet_ret].
    apply quiet_for_each. intros b [file_id map_list].
    destruct (get name map_list); [apply quiet_ret | apply quiet_raise].
  - destruct (isdir w name); [apply quiet_ret | apply quiet_raise].
Qed.

Lemma quiet_resolve (w : world) (name : string) (rf : dict string) :
  quiet (resolve_resources w name rf).
Proof.
  unfold resolve_resources. apply quiet_for_each. intros b [file_id file_path].
  destruct (isfile w file_path); [apply quiet_ret|].
  destruct (path_exists w _).
  - apply quiet_bind; [now apply quiet_emit_info | intros; apply quiet_ret].
  - apply quiet_bind; [now apply quiet_emit_info|]. intros _.
    apply quiet_bind; [apply quiet_lift | intros; apply quiet_ret].
Qed.

Lemma quiet_pop_marker (base_name : string) (d : config) :
  quiet (pop_marker base_name d).
Proof.
  unfold pop_marker, pop. destruct (get "init_class" d) as [v|];
    [|apply quiet_raise].
  destruct (py_eq_str v base_name); [apply quiet_ret | apply quiet_raise].
Qed.

Lemma quiet_search_args (base_name : string) (l : list pyval) (i : nat) :
  quiet (search_args base_name i l).
Proof.
  revert i. induction l as [|arg l IH]; intros i; simpl; [apply quiet_ret|].
  destruct (is_marker arg); [|apply IH].
  apply quiet_bind; [apply quiet_pop_marker | intros; apply quiet_ret].
Qed.

Lemma quiet_search_kwargs (base_name : string) (items : config) :
  quiet (search_kwargs base_name items).
Proof.
  induction items as [|[n arg] items IH]; simpl; [apply quiet_ret|].
  destruct (is_marker arg); [|apply IH].
  apply quiet_bind; [apply quiet_pop_marker | intros; apply quiet_ret].
Qed.

Lemma quiet_split_config (base : ctor) (init_kwargs : config) :
  quiet (split_config base init_kwargs).
Proof.
  unfold split_config, pop. cbv zeta beta iota.
  destruct (py_eq_str _ _); [apply quiet_ret|].
  apply quiet_bind; [apply quiet_lift|]. intros dargs.
  apply quiet_bind; [apply quiet_search_args|]. intros found_pos.
  destruct (match option_map snd found_pos with
            | Some d => _
            | None => _
            end) as [dargs' dkwargs].
  apply quiet_bind; [apply quiet_search_kwargs|]. intros found_kw.
  destruct (match found_kw with Some f => Some (snd f) | None => _ end);
    [|apply quiet_raise].
  repeat match goal with
         | |- context [let (_, _) := ?x in _] => destruct x
         end.
  apply quiet_ret.
Qed.

Lemma quiet_configure (w : world) (cls : pyclass) (name : string) :
  quiet (configure w cls name).
Proof.
  unfold configure.
  apply quiet_bind; [apply quiet_locate|]. intros [rf ic].
  apply quiet_bind; [apply quiet_resolve|]. intros resolved.
  apply quiet_bind.
  - unfold load_init_kwargs, pop.
    destruct (get "model_config_file" resolved); [|apply quiet_ret].
    apply quiet_bind; [apply quiet_lift|]. intros v.
    apply quiet_bind; [|intros; apply quiet_ret].
    unfold as_dict. destruct v; try apply quiet_raise. apply quiet_ret.
  - intros [ik rs].
    apply quiet_bind.
    + destruct (base_model_class cls); [apply quiet_ret | apply quiet_raise].
    + intros base. apply quiet_bind; [apply quiet_split_config|].
      intros; apply quiet_ret.
Qed.

(** X4. Whatever goes wrong before the first constructor call (an unknown
    identifier, a failed download, an unreadable or ill-formed configuration
    file, a class without a registered base model, a marker naming another
    class, no marker at all) ends the call with that exception, and no
    constructor has been called by then. *)
Theorem failure_before_construction
        (w : world) (cls : pyclass) (name : string)
        (args : list pyval) (kwargs : config)
        (tr : list event) (e : exn) :
  configure w cls name = (tr, Raise e) ->
  from_pretrained w cls name args kwargs = (tr, Raise e)
  /\ forall c a kw, ~ In (Construct c a kw) tr.
Proof.
  intros HC. split.
  - unfold from_pretrained, load_pretrained. now rewrite HC.
  - intros c a kw I.
    pose proof (quiet_configure w cls name (Construct c a kw)) as Q.
    rewrite HC in Q. now specialize (Q I).
Qed.

Lemma failure_before_construction_witness :
  from_pretrained TinyMore.offline_world (Tiny.class_of Tiny.TinyForCls)
                  "tiny-model" [] []
  = ([InfoDownloading "https://host/tiny.pdparams" "/home/tiny-model"],
     Raise (External "offline")).
Proof.
  exact (proj1 (failure_before_construction
                  TinyMore.offline_world (Tiny.class_of Tiny.TinyForCls)
                  "tiny-model" [] [] _ _ eq_refl)).
Defined.

(** ** Locating and resolving the resources *)

Lemma set_fresh {V} (k : string) (v : V) (d : dict V) :
  ~ In k (keys d) -> set k v d = (d ++ [(k, v)])%list.
Proof.
  induction d as [|[k' v'] d IH]; simpl; intros NI; [reflexivity|].
  destruct (String.eqb_spec k' k) as [->|_].
  - elim NI. now left.
  - f_equal. apply IH. intros I. apply NI. now right.
Qed.

Lemma keys_app {V} (d e : dict V) : keys (d ++ e)%list = (keys d ++ keys e)%list.
Proof. unfold keys. apply map_app. Qed.

(** A loop whose every turn writes one key and ends well writes the keys
    in order. *)
Lemma for_each_set_map {V X} (F : dict V -> string * X -> M (dict V))
      (ev : string * X -> list event) (g : X -> V)
      (l : list (string * X)) (acc : dict V) :
  NoDup (keys l) ->
  (forall k, In k (keys l) -> ~ In k (keys acc)) ->
  (forall acc kv, In kv l ->
                  F acc kv = (ev kv, Ok (set (fst kv) (g (snd kv)) acc))) ->
  for_each F acc l
  = (flat_map ev l,
     Ok (acc ++ map (fun kv => (fst kv, g (snd kv))) l)%list).
Proof.
  revert acc. induction l as [|[k x] l IH]; intros acc ND HD HF.
  - simpl. now rewrite app_nil_r.
  - inversion ND as [|? ? NI ND']; subst.
    cbn [for_each]. rewrite (HF acc (k, x) (or_introl eq_refl)).
    rewrite bind_Ok. cbn [fst snd].
    rewrite set_fresh by (apply HD; now left).
    rewrite IH.
    + cbn [fst snd flat_map map]. now rewrite <- app_assoc.
    + exact ND'.
    + intros k' I. rewrite keys_app. intros I'.
      apply in_app_or in I' as [I'|[<-|[]]].
      * apply (HD k'); [now right | exact I'].
      * exact (NI I).
    + intros acc' kv I. apply HF. now right.
Qed.

(** X5. When every resource is an existing local file or has a copy in the
    cache directory of the model, nothing is downloaded: each resource
    resolves to the file itself or to its cached copy, a cached copy is
    reported once, and the downloader plays no part. In particular a second
    call after a download that filled the cache fetches nothing. *)
Theorem resolve_without_download
        (w : world) (name : string) (rf : dict string) :
  NoDup (keys rf) ->
  (forall id fp, In (id, fp) rf ->
                 isfile w fp = true
                 \/ path_exists w (cache_path w name fp) = true) ->
  resolve_resources w name rf
  = (flat_map (fun kv => if isfile w (snd kv) then []
                         else [InfoAlreadyCached (cache_path w name (snd kv))])
              rf,
     Ok (map (fun kv => (fst kv, found_locally w name (snd kv))) rf)).
Proof.
  intros ND HL. unfold resolve_resources.
  rewrite (for_each_set_map
             _ (fun kv => if isfile w (snd kv) then []
                          else [InfoAlreadyCached (cache_path w name (snd kv))])
             (found_locally w name) rf [] ND (fun _ _ I => I)).
  - reflexivity.
  - intros acc [id fp] I. cbv beta iota zeta. cbn [fst snd].
    unfold found_locally. fold (cache_path w name fp).
    destruct (isfile w fp) eqn:EF; [reflexivity|].
    destruct (HL id fp I) as [HX|HX]; [rewrite EF in HX; discriminate|].
    now rewrite HX.
Qed.

Lemma resolve_without_download_witness :
  resolve_resources
    (Tiny.world_of true PNone "/home/tiny-model/tiny.pdparams" Tiny.base_state)
    "tiny-model" [("model_state", "https://host/tiny.pdparams")]
  = ([InfoAlreadyCached "/home/tiny-model/tiny.pdparams"],
     Ok [("model_state", "/home/tiny-model/tiny.pdparams")]).
Proof.
  refine (resolve_without_download
            (Tiny.world_of true PNone "/home/tiny-model/tiny.pdparams"
                           Tiny.base_state)
            "tiny-model" [("model_state", "https://host/tiny.pdparams")] _ _).
  - simpl. repeat constructor. simpl. tauto.
  - intros id fp [E|[]]. injection E as <- <-. right. reflexivity.
Defined.

Lemma locate_step (name : string) (maps : dict (dict string))
      (acc : dict string) :
  NoDup (keys maps) ->
  (forall k, In k (keys maps) -> ~ In k (keys acc)) ->
  for_each (fun resource_files (item : string * dict string) =>
              let (file_id, map_list) := item in
              match get name map_list with
              | Some url => ret (set file_id url resource_files)
              | None => raise (KeyError name)
              end)
           acc maps
  = ([],
     if forallb (fun kv => contains name (snd kv)) maps
     then Ok (acc ++ map (url_of name) maps)%list
     else Raise (KeyError name)).
Proof.
  revert acc. induction maps as [|[id ml] maps IH]; intros acc ND HD.
  - simpl. now rewrite app_nil_r.
  - inversion ND as [|? ? NI ND']; subst.
    cbn [for_each forallb map snd fst]. unfold contains at 1, url_of at 1.
    cbn [fst snd].
    destruct (get name ml) as [u|]; [|reflexivity].
    rewrite bind_ret_l, set_fresh by (apply HD; now left).
    rewrite IH.
    + cbn [andb]. destruct (forallb _ maps); [|reflexivity].
      now rewrite <- app_assoc.
    + exact ND'.
    + intros k I. rewrite keys_app. intros I'.
      apply in_app_or in I' as [I'|[<-|[]]].
      * apply (HD k); [now right | exact I'].
      * exact (NI I).
Qed.

(** X6. For a name of the pretrained registry, whether or not a directory
    of that name exists: when every resource map has an entry for the name,
    the resource files are those entries, in the order of the maps, and the
    init configuration is the registered one; when some map has none, the
    call raises [KeyError] on the name. *)
Theorem registry_name_located
        (w : world) (cls : pyclass) (name : string) (cfg : config) :
  get name (pretrained_init_configuration cls) = Some cfg ->
  NoDup (keys (pretrained_resource_files_map cls)) ->
  locate_resources w cls name
  = ([],
     if forallb (fun kv => contains name (snd kv))
                (pretrained_resource_files_map cls)
     then Ok (map (url_of name) (pretrained_resource_files_map cls), cfg)
     else Raise (KeyError name)).
Proof.
  intros HG ND. unfold locate_resources. rewrite HG.
  rewrite (locate_step name _ [] ND (fun _ _ I => I)).
  destruct (forallb _ _); reflexivity.
Qed.

Lemma registry_name_located_witness :
  locate_resources TinyMore.offline_world (Tiny.class_of Tiny.TinyModel)
                   "tiny-model"
  = ([], Ok ([("model_state", "https://host/tiny.pdparams")],
             [("hidden_size", PInt 8)])).
Proof.
  refine (registry_name_located TinyMore.offline_world
                                (Tiny.class_of Tiny.TinyModel) "tiny-model"
                                [("hidden_size", PInt 8)] eq_refl _).
  simpl. repeat constructor. simpl. tauto.
Defined.

Lemma fold_set_fresh {V X} (f : X -> V) (l : list (string * X)) (acc : dict V) :
  NoDup (keys l) ->
  (forall k, In k (keys l) -> ~ In k (keys acc)) ->
  fold_left (fun acc (item : string * X) =>
               let (k, x) := item in set k (f x) acc) l acc
  = (acc ++ map (fun kv => (fst kv, f (snd kv))) l)%list.
Proof.
  revert acc. induction l as [|[k x] l IH]; intros acc ND HD; simpl.
  - now rewrite app_nil_r.
  - inversion ND as [|? ? NI ND']; subst.
    rewrite set_fresh by (apply HD; now left).
    rewrite IH; [now rewrite <- app_assoc | exact ND' |].
    intros k' I. rewrite keys_app. intros I'.
    apply in_app_or in I' as [I'|[<-|[]]].
    + apply (HD k'); [now right | exact I'].
    + exact (NI I).
Qed.

(** X7. For a name that is not in the registry but is an existing
    directory, the resource files are the class's resource file names joined
    to the directory, in their order, followed by the configuration file of
    the directory; the registered configurations play no part. *)
Theorem directory_located
        (w : world) (cls : pyclass) (name : string) :
  get name (pretrained_init_configuration cls) = None ->
  isdir w name = true ->
  NoDup (keys (resource_files_names cls)) ->
  ~ In "model_config_file" (keys (resource_files_names cls)) ->
  locate_resources w cls name
  = ([],
     Ok ((map (fun kv => (fst kv, PyStr.path_join name (snd kv)))
              (resource_files_names cls)
          ++ [("model_config_file",
               PyStr.path_join name (model_config_file cls))])%list,
         [])).
Proof.
  intros HG HD ND NI. unfold locate_resources. rewrite HG, HD.
  rewrite (fold_set_fresh (PyStr.path_join name) _ [] ND (fun _ _ I => I)).
  cbn [app]. rewrite set_fresh; [reflexivity|].
  unfold keys in *. now rewrite map_map.
Qed.

Lemma directory_located_witness :
  locate_resources
    (Tiny.world_of true Tiny.positional_doc "saved/model_state.pdparams"
                   Tiny.head_state)
    (Tiny.class_of Tiny.TinyForCls) "saved"
  = ([], Ok ([("model_state", "saved/model_state.pdparams");
              ("model_config_file", "saved/model_config.json")], [])).
Proof.
  refine (directory_located
            (Tiny.world_of true Tiny.positional_doc
                           "saved/model_state.pdparams" Tiny.head_state)
            (Tiny.class_of Tiny.TinyForCls) "saved" eq_refl eq_refl _ _).
  - simpl. repeat constructor. simpl. tauto.
  - simpl. intros [H|[]]. discriminate H.
Defined.

Lemma for_each_app {A B} (F : B -> A -> M B) (l1 l2 : list A) (acc : B) :
  for_each F acc (l1 ++ l2)%list
  = bind (for_each F acc l1) (fun acc' => for_each F acc' l2).
Proof.
  revert acc. induction l1 as [|x l1 IH]; intros acc; simpl.
  - now destruct (for_each F acc l2).
  - rewrite bind_assoc. apply bind_ext. intros a. apply IH.
Qed.

Lemma for_each_ok {A B} (F : B -> A -> M B) (ev : A -> list event)
      (l : list A) (acc : B) :
  (forall acc x, In x l -> exists acc', F acc x = (ev x, Ok acc')) ->
  exists acc', for_each F acc l = (flat_map ev l, Ok acc').
Proof.
  revert acc. induction l as [|x l IH]; intros acc HF; simpl.
  - now exists acc.
  - destruct (HF acc x (or_introl eq_refl)) as [a Ha]. rewrite Ha.
    destruct (IH a) as [a' Ha']; [intros; apply HF; now right|].
    exists a'. rewrite bind_Ok, Ha'. reflexivity.
Qed.

(** X8. The resources are resolved in order, and the first one that is
    neither a local file nor in the cache is downloaded: when that download
    fails, the call ends with the downloader's exception, having reported
    the cached resources before it and the download, and the resources
    after it are not looked at. *)
Theorem download_failure_stops
        (w : world) (name : string) (before after : dict string)
        (file_id file_path : string) (e : exn) :
  (forall id fp, In (id, fp) before ->
                 isfile w fp = true
                 \/ path_exists w (cache_path w name fp) = true) ->
  isfile w file_path = false ->
  path_exists w (cache_path w name file_path) = false ->
  get_path_from_url w file_path (PyStr.path_join (MODEL_HOME w) name)
  = Raise e ->
  resolve_resources w name (before ++ (file_id, file_path) :: after)%list
  = ((flat_map (fun kv => if isfile w (snd kv) then []
                          else [InfoAlreadyCached
                                  (cache_path w name (snd kv))])
               before
      ++ [InfoDownloading file_path (PyStr.path_join (MODEL_HOME w) name)])%list,
     Raise e).
Proof.
  intros HL HF HX HD. unfold resolve_resources. rewrite for_each_app.
  match goal with
  | |- bind (for_each ?F [] before) _ = _ =>
      destruct (for_each_ok
                  F (fun kv => if isfile w (snd kv) then []
                               else [InfoAlreadyCached
                                       (cache_path w name (snd kv))])
                  before []) as [acc Hacc]
  end.
  - intros acc [id fp] I. cbv beta iota zeta. cbn [fst snd].
    fold (cache_path w name fp).
    destruct (isfile w fp) eqn:EF; [eexists; reflexivity|].
    destruct (HL id fp I) as [H|H]; [rewrite EF in H; discriminate H|].
    rewrite H. eexists. reflexivity.
  - rewrite Hacc, bind_Ok. cbn [for_each]. cbv beta iota zeta.
    fold (cache_path w name file_path). rewrite HF, HX, HD. reflexivity.
Qed.

Lemma download_failure_stops_witness :
  resolve_resources TinyMore.offline_world "tiny-model"
                    ([] ++ [("model_state", "https://host/tiny.pdparams");
                            ("vocab", "https://host/vocab.txt")])%list
  = (([] ++ [InfoDownloading "https://host/tiny.pdparams"
                             "/home/tiny-model"])%list,
     Raise (External "offline")).
Proof.
  refine (download_failure_stops
            TinyMore.offline_world "tiny-model" []
            [("vocab", "https://host/vocab.txt")]
            "model_state" "https://host/tiny.pdparams" (External "offline")
            _ eq_refl eq_refl eq_refl).
  intros id fp [].
Defined.

(** ** Markers of another class *)

(** X9. In a configuration saved for a derived class, a marker that names
    another class than the registered base-model class fails the assertion:
    the first positional marker does so even when a keyword marker names the
    right class, and the first keyword marker does so when the positional
    search passed. *)
Theorem wrong_marker_class
        (base : ctor) (init_kwargs : config) (l : list pyval) :
  let init_class :=
    match get "init_class" init_kwargs with
    | Some v => v
    | None => PStr (c_name base)
    end in
  let kw := remove "init_class" (remove "init_args" init_kwargs) in
  py_eq_str init_class (c_name base) = false ->
  py_iter (init_args_of init_kwargs) = Ok l ->
  (exists i d, first_positional_marker 0 l = Some (i, d)
               /\ marker_ok base d = false)
  \/ ((forall i d, first_positional_marker 0 l = Some (i, d) ->
                   marker_ok base d = true)
      /\ exists n d, first_keyword_marker kw = Some (n, d)
                     /\ marker_ok base d = false) ->
  split_config base init_kwargs = ([], Raise (wrong_base base)).
Proof.
  intros init_class kw HD HL H.
  unfold split_config, pop. cbv beta iota zeta.
  rewrite (get_remove_other "init_class" "init_args") by discriminate.
  fold init_class. rewrite HD. fold (init_args_of init_kwargs). rewrite HL.
  unfold lift. fold (@ret (list pyval) l). rewrite bind_ret_l.
  rewrite search_args_spec. fold kw.
  destruct H as [(i & d & HP & HM)|(HP & n & d & HK & HM)].
  - now rewrite HP, HM.
  - destruct (first_positional_marker 0 l) as [[i d0]|] eqn:EP.
    + rewrite (HP i d0 eq_refl), bind_ret_l. cbn [option_map fst snd seen_at].
      rewrite search_kwargs_spec, HK, HM. reflexivity.
    + rewrite bind_ret_l. cbn [option_map fst snd seen_at].
      rewrite search_kwargs_spec, HK, HM. reflexivity.
Qed.

Lemma wrong_marker_class_witness :
  split_config Tiny.TinyForCls
               [("init_args",
                 PSeq [PDict [("hidden_size", PInt 8);
                              ("init_class", PStr "TinyModel")]]);
                ("tiny", PDict [("hidden_size", PInt 16);
                                ("init_class", PStr "TinyModel")]);
                ("init_class", PStr "Other")]
  = ([], Raise (AssertionError "pretrained base model should be TinyForCls")).
Proof.
  refine (wrong_marker_class
            Tiny.TinyForCls
            [("init_args",
              PSeq [PDict [("hidden_size", PInt 8);
                           ("init_class", PStr "TinyModel")]]);
             ("tiny", PDict [("hidden_size", PInt 16);
                             ("init_class", PStr "TinyModel")]);
             ("init_class", PStr "Other")]
            [PDict [("hidden_size", PInt 8); ("init_class", PStr "TinyModel")]]
            eq_refl eq_refl _).
  left. eexists _, _. split; reflexivity.
Defined.

(** ** Explicit positional arguments of a derived class *)

(** X10. For a derived class, explicit positional arguments of the call
    replace the whole list of derived positional arguments, the freshly
    built base model included: the base model is constructed, and the
    derived constructor is called with the explicit arguments only. *)
Theorem explicit_args_drop_base_model
        (cls : pyclass) (base : ctor) (sp : split)
        (a : pyval) (args : list pyval) (kwargs : config)
        (bargs : list pyval) (base_model : model) :
  c_name (c_self cls) <> c_name base ->
  py_iter (base_args sp) = Ok bargs ->
  c_call base bargs
         (override_known (c_parameters base) kwargs (base_kwargs sp))
  = Ok base_model ->
  (base_arg_index sp = None
   \/ exists i, base_arg_index sp = Some (AtPosition i)
                /\ i < List.length (derived_args sp)) ->
  build_model cls base sp (a :: args) kwargs
  = bind ([Construct (c_name base) bargs
                     (override_known (c_parameters base) kwargs
                                     (base_kwargs sp))],
          Ok tt)
         (fun _ =>
            construct (c_self cls) (a :: args)
                      (override_known (c_parameters (c_self cls)) kwargs
                                      (derived_kwargs sp))).
Proof.
  intros HN HB HC HI. apply String.eqb_neq in HN.
  unfold build_model. rewrite HN, HB.
  unfold lift, construct. simpl. rewrite HC. simpl.
  assert (HA : forall (i : nat) (l : list pyval) (v : pyval),
             i < List.length l -> exists l', list_assign i v l = Ok l').
  { clear. intros i l v. revert i.
    induction l as [|x l IH]; intros i H; simpl in H; [lia|].
    destruct i as [|i]; simpl; [eauto|].
    destruct (IH i) as [l' ->]; [lia | eauto]. }
  destruct HI as [->|(i & -> & HL)].
  - simpl. now destruct (c_call (c_self cls) _ _).
  - destruct (HA i (derived_args sp) (PModel base_model) HL) as [l' ->].
    simpl. now destruct (c_call (c_self cls) _ _).
Qed.

Lemma explicit_args_drop_base_model_witness :
  build_model (Tiny.class_of Tiny.TinyForCls) Tiny.TinyModel
              (mkSplit (PSeq []) [("hidden_size", PInt 8)] [] [] None)
              [PInt 5] []
  = ([Construct "TinyModel" [] [("hidden_size", PInt 8)];
      Construct "TinyForCls" [PInt 5] []],
     Raise TypeError).
Proof.
  refine (explicit_args_drop_base_model
            (Tiny.class_of Tiny.TinyForCls) Tiny.TinyModel
            (mkSplit (PSeq []) [("hidden_size", PInt 8)] [] [] None)
            (PInt 5) [] [] [] Tiny.encoder _ eq_refl eq_refl _).
  - discriminate.
  - now left.
Defined.

(** ** Registration leaves the other classes alone *)

(** X11. A registration that goes through returns the class it was given
    and writes the attribute of its first parent only: every class with
    another name keeps the [base_model_class] it had, or keeps having
    none. *)
Theorem register_base_model_frame
        (st st' : Registry.attrs) (D D' B C : Registry.klass)
        (others : list Registry.klass) :
  Registry.k_bases D = B :: others ->
  Registry.register_base_model st D = Ok (D', st') ->
  Registry.k_name C <> Registry.k_name B ->
  D' = D
  /\ Registry.own_base_model_class st' C = Registry.own_base_model_class st C.
Proof.
  intros HB HR HN. unfold Registry.register_base_model in HR.
  rewrite HB in HR.
  destruct (Registry.issubclass B Registry.PretrainedModel); [|discriminate].
  injection HR as <- <-. split; [reflexivity|].
  unfold Registry.own_base_model_class. now apply DictFacts.get_set_other.
Qed.

Lemma register_base_model_frame_witness :
  Registry.own_base_model_class
    [("TinyPretrainedModel", Tiny.KTinyModel)] Tiny.KTinyModel
  = Registry.own_base_model_class [] Tiny.KTinyModel.
Proof.
  exact (proj2 (register_base_model_frame
                  [] _ Tiny.KTinyModel Tiny.KTinyModel
                  Tiny.KTinyPretrainedModel Tiny.KTinyModel []
                  eq_refl eq_refl ltac:(discriminate))).
Defined.

(** ** A class without resource files *)

(** X12. When the resolved resources hold nothing but the configuration
    file, the model is constructed first and the call then raises
    [IndexError] on taking the first resource; nothing is read or set. *)
Theorem no_resource_raises_after_construction
        (w : world) (cls : pyclass) (name : string)
        (args : list pyval) (kwargs : config)
        (tr tr' : list event) (sp : split) (base : ctor) (m : model) :
  configure w cls name = (tr, Ok (sp, base, [])) ->
  build_model cls base sp args kwargs = (tr', Ok m) ->
  from_pretrained w cls name args kwargs = ((tr ++ tr')%list, Raise IndexError).
Proof.
  intros HC HB.
  rewrite (from_pretrained_built _ _ _ _ _ _ _ _ _ _ _ HC HB).
  unfold load_weights, read_weights. simpl. now rewrite app_nil_r.
Qed.

Lemma no_resource_raises_after_construction_witness :
  from_pretrained TinyMore.config_only_world TinyMore.no_resources_class
                  "saved" [] []
  = ([Construct "TinyModel" [] [("hidden_size", PInt 8)]], Raise IndexError).
Proof.
  exact (no_resource_raises_after_construction
           TinyMore.config_only_world TinyMore.no_resources_class "saved"
           [] [] [] _ _ _ Tiny.encoder eq_refl eq_refl).
Defined.

(** ** Saving *)

Lemma rewrite_config_seq (classes : class_table) (done todo c : config) :
  rewrite_config classes done todo = (c, Ok tt) ->
  init_args_is_seq done -> init_args_is_seq c.
Proof.
  revert done. induction todo as [|[k v] todo IH]; intros done H HS; simpl in H.
  - now injection H as <-.
  - destruct (saved_value classes k v) as [v'|e] eqn:E; [|discriminate].
    apply (IH _ H). intros x I. apply in_app_or in I as [I|[I|[]]].
    + now apply HS.
    + injection I as -> <-. unfold saved_value in E. simpl in E.
      destruct (py_iter v); [|discriminate]. injection E as <-. eauto.
Qed.

Lemma own_config_serializable (classes : class_table) (v : pyval) :
  serializable v = true -> own_config classes v = v.
Proof. destruct v; simpl; intros H; [reflexivity..|discriminate]. Qed.

Lemma map_own_config_serializable (classes : class_table) (l : list pyval) :
  forallb serializable l = true -> map (own_config classes) l = l.
Proof.
  induction l as [|v l IH]; simpl; intros H; [reflexivity|].
  apply andb_true_iff in H as [H1 H2].
  now rewrite (own_config_serializable classes v H1), (IH H2).
Qed.

(** A configuration that can be written is its own substitution. *)
Lemma substituted_config_serializable (classes : class_table) (c : config) :
  serializable (PDict c) = true -> substituted_config classes c = c.
Proof.
  simpl. induction c as [|[k v] c IH]; simpl; intros H; [reflexivity|].
  apply andb_true_iff in H as [H1 H2]. rewrite (IH H2). f_equal.
  destruct (k =? "init_args"), v; try reflexivity; simpl in H1;
    try discriminate H1.
  now rewrite (map_own_config_serializable classes _ H1).
Qed.

Lemma set_set_same {V} (k : string) (v : V) (d : dict V) :
  set k v (set k v d) = set k v d.
Proof.
  induction d as [|[k' v'] d IH]; simpl.
  - now rewrite String.eqb_refl.
  - destruct (k' =? k) eqn:E; simpl; rewrite E; [reflexivity | now rewrite IH].
Qed.

Lemma with_init_config_same (m : model) :
  with_init_config (l_init_config m) m = m.
Proof. now destruct m. Qed.

Lemma l_init_config_with (c : config) (m : model) :
  l_init_config (with_init_config c m) = c.
Proof. now destruct m. Qed.


(** What a save that went through did. *)
Lemma save_model_config_success
      (classes : class_table) (cls : pyclass) (self self' : model)
      (save_dir : string) (d d' : disk) :
  save_model_config classes cls self save_dir d = (self', d', Ok tt) ->
  let path := PyStr.path_join save_dir (model_config_file cls) in
  rewrite_config classes [] (l_init_config self)
  = (l_init_config self', Ok tt)
  /\ self' = with_init_config (l_init_config self') self
  /\ can_open d path = true
  /\ serializable (PDict (l_init_config self')) = true
  /\ d' = mkDisk (can_open d)
                 (set path (Document (PDict (l_init_config self')))
                      (files d)).
Proof.
  intros H path. unfold save_model_config in H. fold path in H.
  destruct (rewrite_config classes [] (l_init_config self))
    as [c [[]|e]] eqn:ER; [|discriminate].
  destruct (can_open d path) eqn:EO; [|discriminate].
  unfold json_dumps in H.
  destruct (serializable (PDict c)) eqn:ES; [|discriminate].
  injection H as <- <-. rewrite l_init_config_with. now repeat split.
Qed.

(** After a save that went through, the instance holds the configuration
    that was written, which contains no model instance. *)
Lemma saved_document_is_instance_config
      (classes : class_table) (cls : pyclass) (self self' : model)
      (save_dir : string) (d d' : disk) :
  save_model_config classes cls self save_dir d = (self', d', Ok tt) ->
  let path := PyStr.path_join save_dir (model_config_file cls) in
  get path (files d') = Some (Document (PDict (l_init_config self')))
  /\ serializable (PDict (l_init_config self')) = true
  /\ init_args_is_seq (l_init_config self')
  /\ forall p, p <> path -> get p (files d') = get p (files d).
Proof.
  intros H path.
  destruct (save_model_config_success _ _ _ _ _ _ _ H)
    as (HR & _ & _ & HS & ->). fold path.
  split; [|split; [exact HS|split]].
  - cbn [files]. now rewrite DictFacts.get_set_same.
  - apply (rewrite_config_seq classes [] _ _ HR). intros v [].
  - intros p n. cbn [files]. apply DictFacts.get_set_other. congruence.
Qed.

(** X14. Saving is idempotent: saving the instance again, as the first save
    left it, to the same directory changes neither the instance nor any
    file. *)
Theorem save_model_config_idempotent
        (classes : class_table) (cls : pyclass) (self self' : model)
        (save_dir : string) (d d' : disk) :
  save_model_config classes cls self save_dir d = (self', d', Ok tt) ->
  save_model_config classes cls self' save_dir d' = (self', d', Ok tt).
Proof.
  intros H.
  destruct (saved_document_is_instance_config _ _ _ _ _ _ _ H)
    as (_ & HS & HQ & _).
  destruct (save_model_config_success _ _ _ _ _ _ _ H)
    as (_ & _ & HO & _ & ->).
  unfold save_model_config. cbn [can_open files].
  rewrite (rewrite_config_spec classes [] _ HQ). cbn [app].
  rewrite (substituted_config_serializable classes _ HS), HO.
  unfold json_dumps. rewrite HS, set_set_same.
  now rewrite with_init_config_same.
Qed.

Lemma save_model_config_idempotent_witness :
  exists self' d',
    save_model_config Tiny.classes (Tiny.class_of Tiny.TinyForCls)
                      Tiny.head "out" Tiny.out_disk
    = (self', d', Ok tt)
    /\ save_model_config Tiny.classes (Tiny.class_of Tiny.TinyForCls)
                         self' "out" d'
       = (self', d', Ok tt).
Proof.
  eexists _, _. split; [reflexivity|].
  exact (save_model_config_idempotent
           Tiny.classes (Tiny.class_of Tiny.TinyForCls) Tiny.head _ "out"
           Tiny.out_disk _ eq_refl).
Defined.





(** The hypothesis on the two paths is needed: a class whose resource file
    has the name of the configuration file saves the weights over the
    configuration, and the directory cannot be loaded from. *)
Example weights_over_configuration :
  let cls := Tiny.class_with Tiny.TinyModel "model_config.json" in
  let '(_, d', r) :=
    save_pretrained Tiny.classes cls TinyMore.saved_exists Tiny.encoder
                    "saved" TinyMore.open_disk in
  r = Ok tt
  /\ configure (world_on TinyMore.saved_exists d' "/home" true) cls "saved"
     = ([], Raise (External "UnicodeDecodeError")).
Proof. split; reflexivity. Qed.
